(** * Image metadata overlay: a shallow embedding of
      [scripts/image_metadata_overlay.py]

    The script downloads a photograph, reads its EXIF tags, normalises six
    of them into a caption dictionary, burns the caption into a copy of the
    image with a shadow effect and saves the result as a JPEG.

    Python values are modelled as follows.
    - [str] is [string]; a character is a code point below 256.
    - [int] is [Z] (unbounded, as in Python).
    - [float] is an IEEE 754 binary64 value, [spec_float] at precision 53.
    - the [tags] dictionary of [exifread] is a [gmap string IfdTag];
    - the [metadata] dictionary is an insertion-ordered association list,
      because [main] iterates over it in insertion order.
    - an exception is a value of [exn], always one that
      [except Exception] catches; a computation that may raise returns
      [exc A].
    - [print] appends a line to a stream and does not raise; the two
      emoji of the messages are the bytes of their UTF-8 encoding.
    - the library calls whose behaviour is decided outside the script
      (network, decoders, fonts, text measurement, the JPEG writer and the
      [float] parser) are the fields of the record [Env]. *)

From Stdlib Require Import ZArith NArith String Ascii List Lia Bool.
From Stdlib Require Import Floats.SpecFloat.
From stdpp Require Import base option gmap strings list pretty.

Local Open Scope string_scope.
Local Open Scope Z_scope.

(** ** Exceptions *)

Inductive exc_class : Type :=
  | ValueError
  | ZeroDivisionError
  | KeyError
  | LibraryError (name : string).

(** [exn_str] is what [str(e)] returns, the text that [main] prints. *)
Record exn : Type := Exn { exn_class : exc_class; exn_str : string }.

Inductive exc (A : Type) : Type :=
  | Ok (a : A)
  | Raise (e : exn).
Arguments Ok {A} a.
Arguments Raise {A} e.

#[global] Instance exc_ret : MRet exc := fun A a => Ok a.
#[global] Instance exc_bind : MBind exc := fun A B f m =>
  match m with
  | Ok a => f a
  | Raise e => Raise e
  end.

Definition succeeds {A} (m : exc A) : bool :=
  match m with Ok _ => true | Raise _ => false end.

(** ** Strings: the [str] methods the script calls *)

Module PyStr.

(** [c.isspace()] on the code points below 256. *)
Definition isspace (c : ascii) : bool :=
  let n := N_of_ascii c in
  (((9 <=? n) && (n <=? 13)) || ((28 <=? n) && (n <=? 32))
   || (n =? 133) || (n =? 160))%N.

Fixpoint lstrip (s : string) : string :=
  match s with
  | EmptyString => EmptyString
  | String c s' => if isspace c then lstrip s' else s
  end.

Fixpoint rstrip (s : string) : string :=
  match s with
  | EmptyString => EmptyString
  | String c s' =>
      match rstrip s' with
      | EmptyString => if isspace c then EmptyString else String c EmptyString
      | r => String c r
      end
  end.

(** [s.strip()] *)
Definition strip (s : string) : string := rstrip (lstrip s).

(** Every character of [s] is whitespace. *)
Fixpoint all_space (s : string) : bool :=
  match s with
  | EmptyString => true
  | String c s' => isspace c && all_space s'
  end.

Definition starts_with_space (s : string) : bool :=
  match s with
  | EmptyString => false
  | String c _ => isspace c
  end.

Fixpoint ends_with_space (s : string) : bool :=
  match s with
  | EmptyString => false
  | String c EmptyString => isspace c
  | String _ s' => ends_with_space s'
  end.

(** [c in s] for a one-character [c]. *)
Fixpoint contains (c : ascii) (s : string) : bool :=
  match s with
  | EmptyString => false
  | String c' s' => if Ascii.eqb c' c then true else contains c s'
  end.

(** Number of occurrences of [c] in [s], [s.count(c)]. *)
Fixpoint count (c : ascii) (s : string) : nat :=
  match s with
  | EmptyString => O
  | String c' s' => if Ascii.eqb c' c then S (count c s') else count c s'
  end.

(** [s.split(sep)] for a one-character separator: every occurrence of
    the separator cuts, empty pieces are kept. *)
Fixpoint split (sep : ascii) (s : string) : list string :=
  match s with
  | EmptyString => [EmptyString]
  | String c s' =>
      if Ascii.eqb c sep then EmptyString :: split sep s'
      else match split sep s' with
           | piece :: rest => String c piece :: rest
           | [] => [String c EmptyString]
           end
  end.

(** [sep.join(pieces)] for a one-character separator. *)
Fixpoint join (sep : ascii) (pieces : list string) : string :=
  match pieces with
  | [] => EmptyString
  | [piece] => piece
  | piece :: rest => piece +:+ String sep (join sep rest)
  end.

(** [s.replace(old, new)] for one-character [old] and [new]. *)
Fixpoint replace (old new : ascii) (s : string) : string :=
  match s with
  | EmptyString => EmptyString
  | String c s' => String (if Ascii.eqb c old then new else c) (replace old new s')
  end.

(** [a, b = pieces]: unpacking into exactly two names. *)
Definition unpack2 (pieces : list string) : exc (string * string) :=
  match pieces with
  | [a; b] => Ok (a, b)
  | [] | [_] =>
      Raise (Exn ValueError
               ("not enough values to unpack (expected 2, got "
                +:+ pretty (length pieces) +:+ ")"))
  | _ => Raise (Exn ValueError "too many values to unpack (expected 2)")
  end.

(** The characters ['0'] to ['9']. *)
Definition isdigit (c : ascii) : bool :=
  let n := N_of_ascii c in ((48 <=? n) && (n <=? 57))%N.

Fixpoint all_digits (s : string) : bool :=
  match s with
  | EmptyString => true
  | String c s' => isdigit c && all_digits s'
  end.

End PyStr.

(** ** Floats: binary64 division and the [.1f] format *)

Module PyFloat.

Definition prec : Z := 53.
Definition emax : Z := 1024.

(** The double nearest to an integer (ties to even). *)
Definition of_Z (n : Z) : spec_float := binary_normalize prec emax n 0 false.

Definition is_zero (x : spec_float) : bool :=
  match x with S754_zero _ => true | _ => false end.

(** [a / b] on floats: Python raises on a zero divisor, otherwise the
    quotient is the IEEE one. *)
Definition truediv (a b : spec_float) : exc spec_float :=
  if is_zero b then Raise (Exn ZeroDivisionError "float division by zero")
  else Ok (SFdiv prec emax a b).

(** [num / den] rounded to the nearest integer, ties to even
    ([0 <= num], [0 < den]). *)
Definition round_half_even (num den : Z) : Z :=
  let q := num / den in
  let r := num mod den in
  match 2 * r ?= den with
  | Lt => q
  | Gt => q + 1
  | Eq => if Z.even q then q else q + 1
  end.

(** The exact value [m * 2^e], times ten, rounded to an integer. *)
Definition tenths (m : positive) (e : Z) : Z :=
  if 0 <=? e then 10 * Z.pos m * 2 ^ e
  else round_half_even (10 * Z.pos m) (2 ^ (- e)).

Definition sign_str (s : bool) : string := if s then "-" else "".

(** [f"{x:.1f}"]: the exact binary value, correctly rounded to one
    decimal. *)
Definition format_1f (x : spec_float) : string :=
  match x with
  | S754_nan => "nan"
  | S754_infinity s => sign_str s +:+ "inf"
  | S754_zero s => sign_str s +:+ "0.0"
  | S754_finite s m e =>
      let t := tenths m e in
      sign_str s +:+ pretty (Z.to_N (t / 10)) +:+ "."
      +:+ pretty (Z.to_N (t mod 10))
  end.

(** The value of a string of decimal digits, most significant first. *)
Fixpoint digits_value (acc : Z) (s : string) : Z :=
  match s with
  | EmptyString => acc
  | String c s' => digits_value (10 * acc + (Z.of_N (N_of_ascii c) - 48)) s'
  end.

(** [float(s)] on the unsigned decimal integer literals: the nearest
    double.  Every other string is rejected here; the theorems below
    take [float] as a variable and use this function only as an
    instance of it. *)
Definition of_literal (s : string) : exc spec_float :=
  match s with
  | EmptyString =>
      Raise (Exn ValueError "could not convert string to float: ''")
  | _ =>
      if PyStr.all_digits s then Ok (of_Z (digits_value 0 s))
      else Raise (Exn ValueError
                    ("could not convert string to float: '" +:+ s +:+ "'"))
  end.

End PyFloat.

(** ** Data of the pipeline *)

(** A tag of [exifread]: [str(tag)] is its printable text.  The class
    defines neither [__bool__] nor [__len__], so every tag object is true
    in a condition, and only [None] (the key is absent) is false. *)
Record IfdTag : Type := { printable : string }.

(** [str(value)] and [f"{value}"] of what [tags.get(key, None)] gave. *)
Definition str (value : option IfdTag) : string :=
  match value with
  | Some tag => printable tag
  | None => "None"
  end.

Definition truthy (value : option IfdTag) : bool :=
  match value with Some _ => true | None => false end.

Definition bytes : Type := list Byte.byte.

Record Response : Type := { status_code : Z; content : bytes }.

Inductive Font : Type :=
  | TrueTypeFont (path : string) (size : Z)
  | DefaultFont.

Definition color : Type := Z * Z * Z.

(** One call [draw.text(xy, text, font=font, fill=fill)]. *)
Record draw_call : Type :=
  DrawText { at_xy : Z * Z; text_of : string; font_of : Font; fill_of : color }.

(** A decoded image: its size, its pixels as decoded, and the text drawn
    on it since, oldest first. *)
Record Image : Type :=
  { width : Z; height : Z; raster : bytes; drawn : list draw_call }.

Definition size (image : Image) : Z * Z := (width image, height image).

Definition copy (image : Image) : Image := image.

Definition draw_text (draw : Image) (xy : Z * Z) (text : string)
    (font : Font) (fill : color) : Image :=
  {| width := width draw; height := height draw; raster := raster draw;
     drawn := drawn draw ++ [DrawText xy text font fill] |}.

(** The image [draw] after the calls [calls], in order. *)
Definition add_calls (draw : Image) (calls : list draw_call) : Image :=
  {| width := width draw; height := height draw; raster := raster draw;
     drawn := drawn draw ++ calls |}.

(** The [metadata] dictionary: keys in insertion order. *)
Module PyDict.

Definition dict : Type := list (string * string).

(** [d[k] = v] *)
Fixpoint setitem (k v : string) (d : dict) : dict :=
  match d with
  | [] => [(k, v)]
  | (k', v') :: d' =>
      if String.eqb k' k then (k', v) :: d' else (k', v') :: setitem k v d'
  end.

Fixpoint get (k : string) (d : dict) : option string :=
  match d with
  | [] => None
  | (k', v') :: d' => if String.eqb k' k then Some v' else get k d'
  end.

(** [d[k]], which raises [KeyError] on a missing key. *)
Definition getitem (k : string) (d : dict) : exc string :=
  match get k d with
  | Some v => Ok v
  | None => Raise (Exn KeyError ("'" +:+ k +:+ "'"))
  end.

Definition keys (d : dict) : list string := map fst d.

End PyDict.

(** [range(a, b)] *)
Definition range (a b : Z) : list Z :=
  map (fun i => a + Z.of_nat i) (seq 0 (Z.to_nat (b - a))).

(** The offsets at which a shadow is drawn, in the order of the two
    nested loops. *)
Definition shadow_offsets (shadow_offset : Z) : list (Z * Z) :=
  flat_map (fun offset_x =>
    flat_map (fun offset_y =>
      if negb (offset_x =? 0) || negb (offset_y =? 0)
      then [(offset_x, offset_y)] else [])
      (range (- shadow_offset) (shadow_offset + 1)))
    (range (- shadow_offset) (shadow_offset + 1)).

(** The calls that draw one line: its shadows, then the text itself. *)
Definition shadowed (position : Z * Z) (text : string) (font : Font)
    (text_color shadow_color : color) (shadow_offset : Z) : list draw_call :=
  map (fun offset =>
         DrawText (fst position + fst offset, snd position + snd offset)
           text font shadow_color)
      (shadow_offsets shadow_offset)
  ++ [DrawText position text font text_color].

Definition newline : string := String "010"%char EmptyString.

(** ** The world the script runs in *)

Record World : Type :=
  { stdout : list string;
    stderr : list string;
    requests_sent : nat;
    files : gmap string bytes }.

(** A statement that may print, fetch, write a file, or raise. *)
Definition M (A : Type) : Type := World -> exc A * World.

#[global] Instance M_ret : MRet M := fun A a w => (Ok a, w).
#[global] Instance M_bind : MBind M := fun A B f m w =>
  match m w with
  | (Ok a, w') => f a w'
  | (Raise e, w') => (Raise e, w')
  end.

(** A computation that touches nothing of the world. *)
Definition lift {A} (m : exc A) : M A := fun w => (m, w).

(** [print(line)] *)
Definition print (line : string) : M unit := fun w =>
  (Ok tt, {| stdout := stdout w ++ [line]; stderr := stderr w;
             requests_sent := requests_sent w; files := files w |}).

(** [print(line, file=sys.stderr)] *)
Definition print_stderr (line : string) : M unit := fun w =>
  (Ok tt, {| stdout := stdout w; stderr := stderr w ++ [line];
             requests_sent := requests_sent w; files := files w |}).

(** [try: body / except Exception as e: handler(e)] *)
Definition try_except {A} (body : M A) (handler : exn -> M A) : M A := fun w =>
  match body w with
  | (Ok a, w') => (Ok a, w')
  | (Raise e, w') => handler e w'
  end.

(** [m] leaves the files and the error stream as they were, however it
    ends. *)
Definition keeps_files {A} (m : M A) : Prop :=
  forall w outcome w',
    m w = (outcome, w') -> files w' = files w /\ stderr w' = stderr w.

(** [m] sends no request, however it ends. *)
Definition keeps_requests {A} (m : M A) : Prop :=
  forall w outcome w', m w = (outcome, w') -> requests_sent w' = requests_sent w.

(** The libraries the script calls.  [network url timeout n] is the
    outcome of [requests.get(url, timeout=timeout)] when it is the [n]-th
    request of the run; [textbbox xy text font] is the measurement
    [draw.textbbox(xy, text, font=font)], which reads the font and not
    the pixels; [save image name format quality fs] is
    [image.save(name, format, quality=quality)] on the files [fs]. *)
Record Env : Type :=
  { network : string -> Z -> nat -> exc Response;
    raise_for_status : Response -> exc unit;
    Image_open : bytes -> exc Image;
    process_file : bytes -> exc (gmap string IfdTag);
    float : string -> exc spec_float;
    path_exists : string -> bool;
    truetype : string -> Z -> exc Font;
    load_default : exc Font;
    textbbox : Z * Z -> string -> Font -> exc (Z * Z * Z * Z);
    save : Image -> string -> string -> Z -> gmap string bytes
           -> exc unit * gmap string bytes }.

Definition SAMPLE_IMAGE_URL : string :=
  "https://raw.githubusercontent.com/ianare/exif-samples/master/jpg/Canon_40D.jpg".
Definition OUTPUT_FILENAME : string := "output_with_metadata.jpg".

(** ** The script *)

Section Script.

Variable env : Env.

(** [requests.get(url, timeout=timeout)]: one more request is sent. *)
Definition requests_get (url : string) (timeout : Z) : M Response := fun w =>
  (network env url timeout (requests_sent w),
   {| stdout := stdout w; stderr := stderr w;
      requests_sent := S (requests_sent w); files := files w |}).

(** Lines 21-26. *)
Definition download_image (url : string) : M Image :=
  print ("Downloading image from " +:+ url +:+ "...");;
  response ← requests_get url 30;
  lift (raise_for_status env response);;
  lift (Image_open env (content response)).

(** Lines 39-47: the camera make and model. *)
Definition camera_text (tags : gmap string IfdTag) : string :=
  let make := tags !! "Image Make" in
  let model := tags !! "Image Model" in
  if truthy make && truthy model then
    PyStr.strip (str make +:+ " " +:+ str model)
  else if truthy model then
    str model
  else
    "Unknown Camera".

(** Lines 49-54: the lens. *)
Definition lens_text (tags : gmap string IfdTag) : string :=
  let lens := tags !! "EXIF LensModel" in
  if truthy lens then str lens else "Unknown Lens".

(** Lines 56-68: the aperture, a fraction converted to a float. *)
Definition aperture_text (tags : gmap string IfdTag) : exc string :=
  let aperture := tags !! "EXIF FNumber" in
  if truthy aperture then
    let aperture_str := str aperture in
    if PyStr.contains "/" aperture_str then
      '(num, denom) ← PyStr.unpack2 (PyStr.split "/" aperture_str);
      numerator ← float env num;
      denominator ← float env denom;
      aperture_value ← PyFloat.truediv numerator denominator;
      Ok ("f/" +:+ PyFloat.format_1f aperture_value)
    else
      Ok ("f/" +:+ aperture_str)
  else
    Ok "f/?".

(** Lines 70-75: the shutter speed. *)
Definition shutter_text (tags : gmap string IfdTag) : string :=
  let shutter := tags !! "EXIF ExposureTime" in
  if truthy shutter then str shutter +:+ "s" else "?s".

(** Lines 77-82: the ISO rating. *)
Definition iso_text (tags : gmap string IfdTag) : string :=
  let iso := tags !! "EXIF ISOSpeedRatings" in
  if truthy iso then "ISO " +:+ str iso else "ISO ?".

(** Lines 84-94: the capture date and time. *)
Definition datetime_text (tags : gmap string IfdTag) : exc string :=
  let datetime_original := tags !! "EXIF DateTimeOriginal" in
  if truthy datetime_original then
    let datetime_str := str datetime_original in
    '(date_part, time_part) ← PyStr.unpack2 (PyStr.split " " datetime_str);
    let date_part := PyStr.replace ":" "-" date_part in
    Ok (date_part +:+ " " +:+ time_part)
  else
    Ok "Unknown Date".

(** Lines 37-96: the dictionary built from the tags, one field after
    the other in the order of the source. *)
Definition extract_fields (tags : gmap string IfdTag) : exc PyDict.dict :=
  let metadata := [] in
  let metadata := PyDict.setitem "camera" (camera_text tags) metadata in
  let metadata := PyDict.setitem "lens" (lens_text tags) metadata in
  aperture ← aperture_text tags;
  let metadata := PyDict.setitem "aperture" aperture metadata in
  let metadata := PyDict.setitem "shutter" (shutter_text tags) metadata in
  let metadata := PyDict.setitem "iso" (iso_text tags) metadata in
  datetime ← datetime_text tags;
  let metadata := PyDict.setitem "datetime" datetime metadata in
  Ok metadata.

(** Lines 29-96. *)
Definition extract_exif_data (url : string) : M PyDict.dict :=
  print "Extracting EXIF metadata...";;
  response ← requests_get url 30;
  lift (raise_for_status env response);;
  tags ← lift (process_file env (content response));
  lift (extract_fields tags).

(** Lines 99-110. *)
Definition create_text_with_shadow (draw : Image) (position : Z * Z)
    (text : string) (font : Font) (text_color shadow_color : color)
    (shadow_offset : Z) : Image :=
  let '(x, y) := position in
  let draw :=
    foldl (fun draw offset_x =>
      foldl (fun draw offset_y =>
        if negb (offset_x =? 0) || negb (offset_y =? 0) then
          draw_text draw (x + offset_x, y + offset_y) text font shadow_color
        else draw)
        draw (range (- shadow_offset) (shadow_offset + 1)))
      draw (range (- shadow_offset) (shadow_offset + 1)) in
  draw_text draw (x, y) text font text_color.

Definition font_paths : list string :=
  [ "/usr/share/fonts/truetype/dejavu/DejaVuSans-Bold.ttf";
    "/usr/share/fonts/truetype/liberation/LiberationSans-Bold.ttf";
    "/System/Library/Fonts/Helvetica.ttc";
    "C:\Windows\Fonts\arial.ttf" ].

(** Lines 131-134: the first existing path is loaded, and the loop
    stops there. *)
Fixpoint first_font (paths : list string) : exc (option Font) :=
  match paths with
  | [] => Ok None
  | font_path :: paths' =>
      if path_exists env font_path then
        font ← truetype env font_path 24; Ok (Some font)
      else first_font paths'
  end.

(** Lines 122-138: any exception inside the [try] block is swallowed
    and the default font loaded instead. *)
Definition resolve_font : exc Font :=
  match
    (font ← first_font font_paths;
     match font with
     | None => load_default env
     | Some font => Ok font
     end)
  with
  | Ok font => Ok font
  | Raise _ => load_default env
  end.

Definition white : color := (255, 255, 255).
Definition black : color := (0, 0, 0).

(** Lines 161-171: the loop over the left lines. *)
Definition draw_left (font : Font) (margin line_spacing : Z)
    (lines : list string) (draw : Image) (y_position : Z) : Image * Z :=
  foldl (fun '(draw, y_position) line =>
           (create_text_with_shadow draw (margin, y_position) line font
              white black 2,
            y_position + line_spacing))
        (draw, y_position) lines.

(** Lines 175-190: the loop over the right lines, each measured
    first. *)
Fixpoint draw_right (font : Font) (width margin line_spacing : Z)
    (lines : list string) (draw : Image) (y_position : Z) : exc (Image * Z) :=
  match lines with
  | [] => Ok (draw, y_position)
  | line :: lines' =>
      bbox ← textbbox env (0, 0) line font;
      let '(bbox_0, _, bbox_2, _) := bbox in
      let text_width := bbox_2 - bbox_0 in
      let x_position := width - margin - text_width in
      let draw :=
        create_text_with_shadow draw (x_position, y_position) line font
          white black 2 in
      draw_right font width margin line_spacing lines' draw
        (y_position + line_spacing)
  end.

(** Lines 113-192. *)
Definition overlay_metadata (image : Image) (metadata : PyDict.dict) : M Image :=
  print "Overlaying metadata onto image...";;
  lift (
    let img_with_metadata := copy image in
    let draw := img_with_metadata in
    font ← resolve_font;
    let '(width, height) := size img_with_metadata in
    camera ← PyDict.getitem "camera" metadata;
    lens ← PyDict.getitem "lens" metadata;
    aperture ← PyDict.getitem "aperture" metadata;
    shutter ← PyDict.getitem "shutter" metadata;
    iso ← PyDict.getitem "iso" metadata;
    let left_text_lines :=
      [camera; lens; aperture +:+ " " +:+ shutter +:+ " " +:+ iso] in
    datetime ← PyDict.getitem "datetime" metadata;
    let right_text_lines := [datetime] in
    let margin := 20 in
    let line_spacing := 30 in
    let y_position :=
      height - margin - Z.of_nat (length left_text_lines) * line_spacing in
    let '(draw, _) :=
      draw_left font margin line_spacing left_text_lines draw y_position in
    let y_position :=
      height - margin - Z.of_nat (length right_text_lines) * line_spacing in
    '(draw, _) ← draw_right font width margin line_spacing right_text_lines
                   draw y_position;
    Ok draw).

(** [image.save(name, format, quality=quality)] *)
Definition Image_save (image : Image) (name format : string) (quality : Z)
    : M unit := fun w =>
  let '(outcome, files') := save env image name format quality (files w) in
  (outcome,
   {| stdout := stdout w; stderr := stderr w;
      requests_sent := requests_sent w; files := files' |}).

(** Lines 205-206. *)
Fixpoint print_items (items : PyDict.dict) : M unit :=
  match items with
  | [] => mret tt
  | (key, value) :: items' =>
      print ("  " +:+ key +:+ ": " +:+ value);; print_items items'
  end.

(** Lines 198-215: the body of the [try]. *)
Definition main_try : M Z :=
  image ← download_image SAMPLE_IMAGE_URL;
  metadata ← extract_exif_data SAMPLE_IMAGE_URL;
  print (newline +:+ "Extracted Metadata:");;
  print_items metadata;;
  image_with_metadata ← overlay_metadata image metadata;
  Image_save image_with_metadata OUTPUT_FILENAME "JPEG" 95;;
  print (newline +:+ "✅ Success! Image saved as " +:+ OUTPUT_FILENAME);;
  mret 0.

(** Lines 216-218. *)
Definition main_except (e : exn) : M Z :=
  print_stderr (newline +:+ "❌ Error: " +:+ exn_str e);;
  mret 1.

(** Lines 195-218; the value is the exit code given to [sys.exit]. *)
Definition main : M Z := try_except main_try main_except.

(** The data flow of [main]: the image of the first fetch, the
    metadata of the second, and the composite of both. *)
Definition reference_pipeline (url : string) : M (PyDict.dict * Image) :=
  image ← download_image url;
  metadata ← extract_exif_data url;
  image_with_metadata ← overlay_metadata image metadata;
  mret (metadata, image_with_metadata).

(** The fetcher of a pipeline that keeps the bytes: one request. *)
Definition fetch (url : string) : M bytes :=
  response ← requests_get url 30;
  lift (raise_for_status env response);;
  mret (content response).

(** The pipeline the design notes ask of a reimplementation: fetch
    once, decode the image and the tags from the one buffer, then map
    and render as before. *)
Definition single_fetch_pipeline (url : string) : M (PyDict.dict * Image) :=
  buffer ← fetch url;
  image ← lift (Image_open env buffer);
  tags ← lift (process_file env buffer);
  metadata ← lift (extract_fields tags);
  image_with_metadata ← overlay_metadata image metadata;
  mret (metadata, image_with_metadata).

(** The keys of the dictionary that [extract_exif_data] builds. *)
Definition fields : list string :=
  ["camera"; "lens"; "aperture"; "shutter"; "iso"; "datetime"].

(** The fetch made in world [w] is answered, accepted, and decodes to
    [tags]. *)
Definition reads_tags (url : string) (w : World) (tags : gmap string IfdTag)
    : Prop :=
  exists response,
    network env url 30 (requests_sent w) = Ok response
    /\ raise_for_status env response = Ok tt
    /\ process_file env (content response) = Ok tags.

(** The writer either succeeds or leaves the files as they were. *)
Definition save_failure_keeps_files : Prop :=
  forall image name format quality fs e fs',
    save env image name format quality fs = (Raise e, fs') -> fs' = fs.

End Script.

(** ** A concrete environment, to run the script on *)

Module Demo.

Definition tag (text : string) : IfdTag := {| printable := text |}.

(** The six tags of the sample photograph. *)
Definition canon_tags : gmap string IfdTag :=
  <["Image Make" := tag "Canon"]>
  (<["Image Model" := tag "Canon EOS 40D"]>
  (<["EXIF FNumber" := tag "71/10"]>
  (<["EXIF ExposureTime" := tag "1/160"]>
  (<["EXIF ISOSpeedRatings" := tag "100"]>
  (<["EXIF DateTimeOriginal" := tag "2008:05:30 15:56:01"]> ∅))))).

Definition response (status : Z) : Response :=
  {| status_code := status; content := [Byte.xff; Byte.xd8] |}.

Definition image : Image :=
  {| width := 100; height := 100; raster := []; drawn := [] |}.

Definition http_error (r : Response) : exn :=
  Exn (LibraryError "HTTPError")
      (pretty (Z.to_N (status_code r)) +:+ " Server Error").

(** [status] is what the server answers, [tags] what the decoder
    finds, [measure] whether text can be measured. *)
Definition env (status : Z) (tags : gmap string IfdTag) (measure : bool)
    : Env :=
  {| network := fun _ _ _ => Ok (response status);
     raise_for_status := fun r =>
       if (400 <=? status_code r) && (status_code r <? 600)
       then Raise (http_error r) else Ok tt;
     Image_open := fun _ => Ok image;
     process_file := fun _ => Ok tags;
     float := PyFloat.of_literal;
     path_exists := fun _ => false;
     truetype := fun path size => Ok (TrueTypeFont path size);
     load_default := Ok DefaultFont;
     textbbox := fun _ text _ =>
       if measure then Ok (0, 0, 6 * Z.of_nat (String.length text), 11)
       else Raise (Exn ValueError "Only supported for TrueType fonts");
     save := fun image name _ _ fs =>
       (Ok tt, <[name := raster image]> fs) |}.

Definition world : World :=
  {| stdout := []; stderr := []; requests_sent := 0; files := ∅ |}.

Definition metadata : PyDict.dict :=
  [ ("camera", "Test Cam"); ("lens", "Test Lens"); ("aperture", "f/2.0");
    ("shutter", "1/100s"); ("iso", "ISO 200");
    ("datetime", "2020-01-01 00:00:00") ].

(** [base] with other fonts on disk. *)
Definition with_fonts (on_disk : string -> bool)
    (load : string -> Z -> exc Font) (default : exc Font) (base : Env) : Env :=
  {| network := network base;
     raise_for_status := raise_for_status base;
     Image_open := Image_open base;
     process_file := process_file base;
     float := float base;
     path_exists := on_disk;
     truetype := load;
     load_default := default;
     textbbox := textbbox base;
     save := save base |}.

(** [base] with another server. *)
Definition with_network (answer : string -> Z -> nat -> exc Response)
    (base : Env) : Env :=
  {| network := answer;
     raise_for_status := raise_for_status base;
     Image_open := Image_open base;
     process_file := process_file base;
     float := float base;
     path_exists := path_exists base;
     truetype := truetype base;
     load_default := load_default base;
     textbbox := textbbox base;
     save := save base |}.

(** A server that answers the first request and times out on the next. *)
Definition one_answer (url : string) (timeout : Z) (n : nat) : exc Response :=
  match n with
  | O => Ok (response 200)
  | S _ => Raise (Exn (LibraryError "Timeout") "Read timed out.")
  end.

End Demo.

(** * Properties *)

(** ** The string methods *)

Section PyStrFacts.

Import PyStr.

Lemma eqb_ascii_refl (c : ascii) : Ascii.eqb c c = true.
Proof. apply Ascii.eqb_refl. Qed.

Lemma contains_app (c : ascii) (a b : string) :
  contains c (a +:+ b) = contains c a || contains c b.
Proof.
  induction a as [|c' a IH]; simpl; [reflexivity|].
  destruct (Ascii.eqb c' c); [reflexivity | exact IH].
Qed.

Lemma contains_cons_same (c : ascii) (s : string) :
  contains c (String c s) = true.
Proof. simpl. now rewrite eqb_ascii_refl. Qed.

Lemma split_not_nil (c : ascii) (s : string) : split c s <> [].
Proof.
  destruct s as [|c' s]; simpl; [discriminate|].
  destruct (Ascii.eqb c' c); [discriminate|].
  destruct (split c s); discriminate.
Qed.

(** A string without the separator is a single piece. *)
Lemma split_absent (c : ascii) (s : string) :
  contains c s = false -> split c s = [s].
Proof.
  induction s as [|c' s IH]; simpl; [reflexivity|].
  destruct (Ascii.eqb c' c); [discriminate|].
  intros H. now rewrite (IH H).
Qed.

(** The first separator ends the first piece. *)
Lemma split_app_sep (c : ascii) (a b : string) :
  contains c a = false ->
  split c (a +:+ String c b) = a :: split c b.
Proof.
  induction a as [|c' a IH]; simpl.
  - intros _. now rewrite eqb_ascii_refl.
  - destruct (Ascii.eqb c' c); [discriminate|].
    intros H. now rewrite (IH H).
Qed.

(** [split] cuts at every separator and nowhere else: no piece holds the
    separator, and joining the pieces gives the string back. *)
Lemma split_pieces (c : ascii) (s : string) :
  Forall (fun piece => contains c piece = false) (split c s).
Proof.
  induction s as [|c' s IH]; cbn [split]; [repeat constructor|].
  destruct (Ascii.eqb c' c) eqn:E; [constructor; [reflexivity | exact IH]|].
  destruct (split c s) as [|piece rest]; [repeat constructor; cbn; now rewrite E|].
  inversion IH as [|? ? Hpiece Hrest]; subst.
  constructor; [cbn; now rewrite E | exact Hrest].
Qed.

Lemma join_split (c : ascii) (s : string) : join c (split c s) = s.
Proof.
  induction s as [|c' s IH]; cbn [split]; [reflexivity|].
  pose proof (split_not_nil c s) as Hne.
  destruct (Ascii.eqb c' c) eqn:E.
  - apply Ascii.eqb_eq in E. subst c'.
    destruct (split c s) as [|piece rest]; [contradiction|].
    change (String c (join c (piece :: rest)) = String c s).
    now rewrite IH.
  - destruct (split c s) as [|piece [|piece' rest]]; [contradiction| |].
    + change (String c' (join c [piece]) = String c' s). now rewrite IH.
    + change (String c' (join c (piece :: piece' :: rest)) = String c' s).
      now rewrite IH.
Qed.

(** There is one more piece than there are separators. *)
Lemma split_length (c : ascii) (s : string) :
  length (split c s) = S (count c s).
Proof.
  induction s as [|c' s IH]; simpl; [reflexivity|].
  destruct (Ascii.eqb c' c); simpl; [now rewrite IH|].
  destruct (split c s) as [|piece rest] eqn:E; simpl in *; lia.
Qed.

Lemma count_absent (c : ascii) (s : string) :
  contains c s = false -> count c s = O.
Proof.
  induction s as [|c' s IH]; simpl; [reflexivity|].
  destruct (Ascii.eqb c' c); [discriminate | exact IH].
Qed.

Lemma replace_app (old new : ascii) (a b : string) :
  replace old new (a +:+ b) = replace old new a +:+ replace old new b.
Proof. induction a as [|c a IH]; simpl; [reflexivity | now rewrite IH]. Qed.

Lemma replace_absent (old new : ascii) (s : string) :
  contains old s = false -> replace old new s = s.
Proof.
  induction s as [|c s IH]; simpl; [reflexivity|].
  destruct (Ascii.eqb c old); [discriminate|].
  intros H. now rewrite (IH H).
Qed.

(** A digit string holds no character that is not a digit. *)
Lemma all_digits_absent (c : ascii) (s : string) :
  isdigit c = false -> all_digits s = true -> contains c s = false.
Proof.
  intros Hc. induction s as [|c' s IH]; simpl; [reflexivity|].
  intros [Hd Hs]%andb_prop.
  destruct (Ascii.eqb c' c) eqn:E; [|now apply IH].
  apply Ascii.eqb_eq in E. congruence.
Qed.

Lemma unpack2_pair (a b : string) : unpack2 [a; b] = Ok (a, b).
Proof. reflexivity. Qed.

(** Unpacking anything but two pieces raises [ValueError]. *)
Lemma unpack2_wrong_length (pieces : list string) :
  length pieces <> 2%nat ->
  exists e, unpack2 pieces = Raise e /\ exn_class e = ValueError.
Proof.
  destruct pieces as [|a [|b [|c rest]]]; simpl; intros H;
    try (eexists; split; reflexivity).
  now destruct H.
Qed.

(** [strip] removes whitespace, and only whitespace, from both ends. *)
Lemma lstrip_prefix (s : string) :
  exists l, s = l +:+ lstrip s /\ all_space l = true.
Proof.
  induction s as [|c s (l & E & Hl)]; [now exists EmptyString|].
  cbn [lstrip]. destruct (isspace c) eqn:Hc.
  - exists (String c l). split.
    + change (String c s = String c (l +:+ lstrip s)). now rewrite <- E.
    + cbn. now rewrite Hc.
  - now exists EmptyString.
Qed.

Lemma lstrip_start (s : string) : starts_with_space (lstrip s) = false.
Proof.
  induction s as [|c s IH]; [reflexivity|].
  cbn [lstrip]. destruct (isspace c) eqn:Hc; [exact IH | exact Hc].
Qed.

Lemma rstrip_suffix (s : string) :
  exists r, s = rstrip s +:+ r /\ all_space r = true.
Proof.
  induction s as [|c s (r & E & Hr)]; [now exists EmptyString|].
  cbn [rstrip]. destruct (rstrip s) as [|c' t] eqn:Et.
  - destruct (isspace c) eqn:Hc.
    + exists (String c r). split.
      * change (String c s = String c r). now rewrite E.
      * cbn. now rewrite Hc.
    + exists r. split; [|exact Hr].
      change (String c s = String c r). now rewrite E.
  - exists r. split; [|exact Hr].
    change (String c s = String c (String c' t +:+ r)). now rewrite <- E.
Qed.

Lemma rstrip_end (s : string) : ends_with_space (rstrip s) = false.
Proof.
  induction s as [|c s IH]; [reflexivity|].
  cbn [rstrip]. destruct (rstrip s) as [|c' t] eqn:Et.
  - destruct (isspace c) eqn:Hc; [reflexivity | cbn; exact Hc].
  - exact IH.
Qed.

Lemma rstrip_start (s : string) :
  starts_with_space s = false -> starts_with_space (rstrip s) = false.
Proof.
  destruct s as [|c s]; [reflexivity|]. cbn [starts_with_space rstrip].
  intros Hc. destruct (rstrip s); [rewrite Hc|]; exact Hc.
Qed.

Lemma strip_trims (s : string) :
  starts_with_space (strip s) = false
  /\ ends_with_space (strip s) = false
  /\ exists l r,
       s = l +:+ strip s +:+ r /\ all_space l = true /\ all_space r = true.
Proof.
  unfold strip. split; [apply rstrip_start, lstrip_start|].
  split; [apply rstrip_end|].
  destruct (lstrip_prefix s) as (l & El & Hl).
  destruct (rstrip_suffix (lstrip s)) as (r & Er & Hr).
  exists l, r. split; [|split; assumption].
  now rewrite <- Er.
Qed.

Lemma string_app_assoc (a b c : string) : (a +:+ b) +:+ c = a +:+ (b +:+ c).
Proof.
  induction a as [|x a IH]; [reflexivity|].
  change (String x ((a +:+ b) +:+ c) = String x (a +:+ (b +:+ c))).
  now rewrite IH.
Qed.

End PyStrFacts.

(** ** The [.1f] format *)

(** The integer chosen by [round_half_even] is within half a unit of the
    quotient. *)
Lemma round_half_even_nearest (num den : Z) :
  0 <= num -> 0 < den ->
  2 * Z.abs (num - PyFloat.round_half_even num den * den) <= den.
Proof.
  intros Hnum Hden. unfold PyFloat.round_half_even.
  pose proof (Z.div_mod num den ltac:(lia)) as Hdiv.
  pose proof (Z.mod_pos_bound num den Hden) as Hmod.
  assert (Hdown : num - num / den * den = num mod den)
    by (rewrite Hdiv at 1; ring).
  assert (Hup : num - (num / den + 1) * den = num mod den - den)
    by (rewrite Hdiv at 1; ring).
  destruct (Z.compare_spec (2 * (num mod den)) den) as [Hcmp|Hcmp|Hcmp];
    [destruct (Z.even (num / den))| |];
    rewrite ?Hdown, ?Hup; clear Hdiv Hdown Hup;
    generalize dependent (num mod den); intros r Hmod Hcmp;
    lia.
Qed.

(** On a tie the even neighbour is chosen. *)
Lemma round_half_even_tie (num den : Z) :
  0 <= num -> 0 < den -> 2 * (num mod den) = den ->
  Z.even (PyFloat.round_half_even num den) = true.
Proof.
  intros Hnum Hden Htie. unfold PyFloat.round_half_even.
  rewrite Htie, Z.compare_refl.
  destruct (Z.even (num / den)) eqn:E; [exact E|].
  rewrite Z.even_add, E. reflexivity.
Qed.

(** ** Running statements *)

Section MonadFacts.

Context {A B : Type}.

Lemma bind_ok (m : M A) (f : A -> M B) (w w1 : World) (a : A) :
  m w = (Ok a, w1) -> (m ≫= f) w = f a w1.
Proof. intros H. unfold mbind, M_bind. now rewrite H. Qed.

Lemma bind_raise (m : M A) (f : A -> M B) (w w1 : World) (e : exn) :
  m w = (Raise e, w1) -> (m ≫= f) w = (Raise e, w1).
Proof. intros H. unfold mbind, M_bind. now rewrite H. Qed.

Lemma bind_ok_inv (m : M A) (f : A -> M B) (w w' : World) (b : B) :
  (m ≫= f) w = (Ok b, w') ->
  exists a w1, m w = (Ok a, w1) /\ f a w1 = (Ok b, w').
Proof.
  unfold mbind, M_bind. destruct (m w) as [[a|e] w1]; intros H.
  - now exists a, w1.
  - discriminate.
Qed.

Lemma bind_raise_inv (m : M A) (f : A -> M B) (w w' : World) (e : exn) :
  (m ≫= f) w = (Raise e, w') ->
  m w = (Raise e, w')
  \/ exists a w1, m w = (Ok a, w1) /\ f a w1 = (Raise e, w').
Proof.
  unfold mbind, M_bind. destruct (m w) as [[a|e1] w1]; intros H.
  - right. now exists a, w1.
  - left. congruence.
Qed.

End MonadFacts.

(** ** The metadata extractor *)

Section ExtractFacts.

Variable env : Env.

(** Once the tags are read, the extractor returns what the field rules
    make of them. *)
Lemma extract_exif_data_reads (url : string) (w : World)
    (tags : gmap string IfdTag) :
  reads_tags env url w tags ->
  exists w', extract_exif_data env url w = (extract_fields env tags, w').
Proof.
  intros (response & Hget & Hstatus & Hdecode).
  unfold extract_exif_data, requests_get, print, lift, mbind, M_bind.
  cbn. rewrite Hget, Hstatus, Hdecode. eexists. reflexivity.
Qed.

(** The dictionary, when both fallible fields are computed. *)
Lemma extract_fields_ok (tags : gmap string IfdTag) (a d : string) :
  aperture_text env tags = Ok a ->
  datetime_text tags = Ok d ->
  extract_fields env tags
  = Ok [ ("camera", camera_text tags); ("lens", lens_text tags);
         ("aperture", a); ("shutter", shutter_text tags);
         ("iso", iso_text tags); ("datetime", d) ].
Proof.
  intros Ha Hd. unfold extract_fields. rewrite Ha. cbn. rewrite Hd.
  reflexivity.
Qed.

Lemma extract_fields_inv (tags : gmap string IfdTag) (metadata : PyDict.dict) :
  extract_fields env tags = Ok metadata ->
  exists a d,
    aperture_text env tags = Ok a /\ datetime_text tags = Ok d
    /\ metadata
       = [ ("camera", camera_text tags); ("lens", lens_text tags);
           ("aperture", a); ("shutter", shutter_text tags);
           ("iso", iso_text tags); ("datetime", d) ].
Proof.
  intros H.
  destruct (aperture_text env tags) as [a|e] eqn:Ha;
    [|unfold extract_fields in H; rewrite Ha in H; discriminate].
  destruct (datetime_text tags) as [d|e] eqn:Hd;
    [|unfold extract_fields in H; rewrite Ha in H; cbn in H;
      rewrite Hd in H; discriminate].
  rewrite (extract_fields_ok tags a d Ha Hd) in H.
  exists a, d. repeat split. congruence.
Qed.

Lemma extract_fields_aperture_raises (tags : gmap string IfdTag) (e : exn) :
  aperture_text env tags = Raise e -> extract_fields env tags = Raise e.
Proof. intros H. unfold extract_fields. now rewrite H. Qed.

Lemma extract_fields_datetime_raises (tags : gmap string IfdTag)
    (a : string) (e : exn) :
  aperture_text env tags = Ok a -> datetime_text tags = Raise e ->
  extract_fields env tags = Raise e.
Proof.
  intros Ha Hd. unfold extract_fields. rewrite Ha. cbn. now rewrite Hd.
Qed.

(** What a successful call returns, in terms of the tags it read. *)
Lemma extract_exif_data_inv (url : string) (w w' : World)
    (tags : gmap string IfdTag) (metadata : PyDict.dict) :
  reads_tags env url w tags ->
  extract_exif_data env url w = (Ok metadata, w') ->
  exists a d,
    aperture_text env tags = Ok a /\ datetime_text tags = Ok d
    /\ metadata
       = [ ("camera", camera_text tags); ("lens", lens_text tags);
           ("aperture", a); ("shutter", shutter_text tags);
           ("iso", iso_text tags); ("datetime", d) ].
Proof.
  intros Hr H. destruct (extract_exif_data_reads url w tags Hr) as [w1 E].
  rewrite E in H. apply extract_fields_inv. congruence.
Qed.

(** *** The field rules *)

Lemma aperture_text_absent (tags : gmap string IfdTag) :
  tags !! "EXIF FNumber" = None -> aperture_text env tags = Ok "f/?".
Proof. intros H. unfold aperture_text. now rewrite H. Qed.

Lemma aperture_text_plain (tags : gmap string IfdTag) (tag : IfdTag) :
  tags !! "EXIF FNumber" = Some tag ->
  PyStr.contains "/" (printable tag) = false ->
  aperture_text env tags = Ok ("f/" +:+ printable tag).
Proof. intros H Hs. unfold aperture_text. rewrite H. cbn. now rewrite Hs. Qed.

Lemma aperture_text_fraction (tags : gmap string IfdTag) (tag : IfdTag)
    (num denom : string) (n d : spec_float) :
  tags !! "EXIF FNumber" = Some tag ->
  printable tag = num +:+ "/" +:+ denom ->
  PyStr.contains "/" num = false ->
  PyStr.contains "/" denom = false ->
  float env num = Ok n ->
  float env denom = Ok d ->
  aperture_text env tags
  = (aperture_value ← PyFloat.truediv n d;
     Ok ("f/" +:+ PyFloat.format_1f aperture_value)).
Proof.
  intros H Hp Hn Hd Hfn Hfd. unfold aperture_text. rewrite H. cbn.
  rewrite Hp.
  change (num +:+ "/" +:+ denom) with (num +:+ String "/" denom).
  rewrite contains_app, contains_cons_same, orb_true_r.
  rewrite (split_app_sep _ _ _ Hn), (split_absent _ _ Hd). cbn.
  rewrite Hfn. cbn. rewrite Hfd. reflexivity.
Qed.

Lemma datetime_text_absent (tags : gmap string IfdTag) :
  tags !! "EXIF DateTimeOriginal" = None -> datetime_text tags = Ok "Unknown Date".
Proof. intros H. unfold datetime_text. now rewrite H. Qed.

(** One space: the date part has its colons replaced. *)
Lemma datetime_text_one_space (tags : gmap string IfdTag) (tag : IfdTag)
    (date time : string) :
  tags !! "EXIF DateTimeOriginal" = Some tag ->
  printable tag = date +:+ " " +:+ time ->
  PyStr.contains " " date = false ->
  PyStr.contains " " time = false ->
  datetime_text tags = Ok (PyStr.replace ":" "-" date +:+ " " +:+ time).
Proof.
  intros H Hp Hd Ht. unfold datetime_text. rewrite H. cbn. rewrite Hp.
  change (date +:+ " " +:+ time) with (date +:+ String " " time).
  rewrite (split_app_sep _ _ _ Hd), (split_absent _ _ Ht). reflexivity.
Qed.

(** Any other number of spaces: the unpacking raises. *)
Lemma datetime_text_malformed (tags : gmap string IfdTag) (tag : IfdTag) :
  tags !! "EXIF DateTimeOriginal" = Some tag ->
  PyStr.count " " (printable tag) <> 1%nat ->
  exists e, datetime_text tags = Raise e /\ exn_class e = ValueError.
Proof.
  intros H Hc. unfold datetime_text. rewrite H. cbn.
  destruct (unpack2_wrong_length (PyStr.split " " (printable tag)))
    as (e & He & Hclass).
  { rewrite split_length. lia. }
  exists e. rewrite He. split; [reflexivity | exact Hclass].
Qed.

End ExtractFacts.

(** ** The claims about the extractor *)

Section ExtractClaims.

Variable env : Env.

(** C1: when the extraction succeeds, the returned dictionary holds
    exactly the six fields camera, lens, aperture, shutter, iso and
    datetime, and each field whose tag is missing from the tag set is
    its fallback literal.  (The camera is built from the model tag, with
    the make in front when there is one: its fallback applies when the
    model is missing.) *)
Theorem extract_exif_data_fully_populated (url : string) (w w' : World)
    (tags : gmap string IfdTag) (metadata : PyDict.dict) :
  reads_tags env url w tags ->
  extract_exif_data env url w = (Ok metadata, w') ->
  PyDict.keys metadata = fields
  /\ Forall (fun key => is_Some (PyDict.get key metadata)) fields
  /\ (tags !! "Image Model" = None ->
      PyDict.get "camera" metadata = Some "Unknown Camera")
  /\ (tags !! "EXIF LensModel" = None ->
      PyDict.get "lens" metadata = Some "Unknown Lens")
  /\ (tags !! "EXIF FNumber" = None ->
      PyDict.get "aperture" metadata = Some "f/?")
  /\ (tags !! "EXIF ExposureTime" = None ->
      PyDict.get "shutter" metadata = Some "?s")
  /\ (tags !! "EXIF ISOSpeedRatings" = None ->
      PyDict.get "iso" metadata = Some "ISO ?")
  /\ (tags !! "EXIF DateTimeOriginal" = None ->
      PyDict.get "datetime" metadata = Some "Unknown Date").
Proof.
  intros Hr H.
  destruct (extract_exif_data_inv env url w w' tags metadata Hr H)
    as (a & d & Ha & Hd & ->).
  split; [reflexivity|].
  split; [repeat constructor; cbn; eauto|].
  repeat split; intros Hnone; cbn.
  - unfold camera_text. rewrite Hnone. cbn. now rewrite andb_false_r.
  - unfold lens_text. now rewrite Hnone.
  - rewrite (aperture_text_absent env tags Hnone) in Ha. congruence.
  - unfold shutter_text. now rewrite Hnone.
  - unfold iso_text. now rewrite Hnone.
  - rewrite (datetime_text_absent tags Hnone) in Hd. congruence.
Qed.

(** Rewrites [contains c s] to [false] for the digit strings [s] of the
    context. *)
Ltac digits_absent :=
  repeat match goal with
    | |- context [PyStr.contains ?c ?s] =>
        is_var s;
        rewrite (all_digits_absent c s) by (reflexivity || assumption)
    end.

(** The date part of a well-formed timestamp, with hyphens. *)
Lemma replace_date (y mo d : string) :
  PyStr.all_digits y = true -> PyStr.all_digits mo = true ->
  PyStr.all_digits d = true ->
  PyStr.replace ":" "-" (y +:+ ":" +:+ mo +:+ ":" +:+ d)
  = y +:+ "-" +:+ mo +:+ "-" +:+ d.
Proof.
  intros Hy Hmo Hd.
  rewrite !replace_app.
  rewrite (replace_absent ":" "-" y), (replace_absent ":" "-" mo),
    (replace_absent ":" "-" d)
    by (apply all_digits_absent; [reflexivity | assumption]).
  reflexivity.
Qed.

(** C2: the datetime field of a timestamp written YYYY:MM:DD HH:MM:SS
    is YYYY-MM-DD HH:MM:SS, and with no timestamp tag it is
    "Unknown Date", in both cases when the aperture, computed before it,
    did not raise.  A timestamp that does not hold exactly one space makes
    the extraction fail, and with the [ValueError] of the unpacking (the
    FormatError of the specification) unless the aperture raised first. *)
Theorem extract_exif_data_datetime (url : string) (w : World)
    (tags : gmap string IfdTag) :
  reads_tags env url w tags ->
  (forall tag y mo d h mi s a,
      tags !! "EXIF DateTimeOriginal" = Some tag ->
      PyStr.all_digits y = true -> PyStr.all_digits mo = true ->
      PyStr.all_digits d = true -> PyStr.all_digits h = true ->
      PyStr.all_digits mi = true -> PyStr.all_digits s = true ->
      printable tag
      = (y +:+ ":" +:+ mo +:+ ":" +:+ d) +:+ " " +:+ (h +:+ ":" +:+ mi +:+ ":" +:+ s) ->
      aperture_text env tags = Ok a ->
      exists metadata w',
        extract_exif_data env url w = (Ok metadata, w')
        /\ PyDict.get "datetime" metadata
           = Some ((y +:+ "-" +:+ mo +:+ "-" +:+ d) +:+ " "
                   +:+ (h +:+ ":" +:+ mi +:+ ":" +:+ s)))
  /\ (forall tag,
      tags !! "EXIF DateTimeOriginal" = Some tag ->
      PyStr.count " " (printable tag) <> 1%nat ->
      exists e w',
        extract_exif_data env url w = (Raise e, w')
        /\ (succeeds (aperture_text env tags) = true ->
            exn_class e = ValueError))
  /\ (forall a,
      tags !! "EXIF DateTimeOriginal" = None ->
      aperture_text env tags = Ok a ->
      exists metadata w',
        extract_exif_data env url w = (Ok metadata, w')
        /\ PyDict.get "datetime" metadata = Some "Unknown Date").
Proof.
  intros Hr. destruct (extract_exif_data_reads env url w tags Hr) as [w1 E].
  rewrite E. repeat split.
  - intros tag y mo d h mi s a Htag Hy Hmo Hd Hh Hmi Hs Hp Ha.
    assert (Hdt : datetime_text tags
                  = Ok ((y +:+ "-" +:+ mo +:+ "-" +:+ d) +:+ " "
                        +:+ (h +:+ ":" +:+ mi +:+ ":" +:+ s))).
    { rewrite <- replace_date by assumption.
      apply (datetime_text_one_space tags tag); [exact Htag | exact Hp | |].
      - rewrite !contains_app. digits_absent. reflexivity.
      - rewrite !contains_app. digits_absent. reflexivity. }
    rewrite (extract_fields_ok env tags _ _ Ha Hdt).
    eexists _, w1. split; reflexivity.
  - intros tag Htag Hc.
    destruct (datetime_text_malformed tags tag Htag Hc) as (e & He & Hclass).
    destruct (aperture_text env tags) as [a|e'] eqn:Ha.
    + rewrite (extract_fields_datetime_raises env tags a e Ha He).
      exists e, w1. split; [reflexivity | intros _; exact Hclass].
    + rewrite (extract_fields_aperture_raises env tags e' Ha).
      exists e', w1. split; [reflexivity | discriminate].
  - intros a Hnone Ha.
    rewrite (extract_fields_ok env tags _ _ Ha (datetime_text_absent tags Hnone)).
    eexists _, w1. split; reflexivity.
Qed.



(** C10: an f-number written as a fraction whose denominator is the
    float zero makes the extraction raise [ZeroDivisionError]: the
    division is not guarded, and the error leaves [extract_exif_data]. *)
Theorem extract_exif_data_zero_denominator (url : string) (w : World)
    (tags : gmap string IfdTag) (tag : IfdTag) (num denom : string)
    (n d : spec_float) :
  reads_tags env url w tags ->
  tags !! "EXIF FNumber" = Some tag ->
  printable tag = num +:+ "/" +:+ denom ->
  PyStr.contains "/" num = false ->
  PyStr.contains "/" denom = false ->
  float env num = Ok n ->
  float env denom = Ok d ->
  PyFloat.is_zero d = true ->
  exists e w',
    extract_exif_data env url w = (Raise e, w')
    /\ exn_class e = ZeroDivisionError.
Proof.
  intros Hr Htag Hp Hn Hd Hfn Hfd Hz.
  destruct (extract_exif_data_reads env url w tags Hr) as [w1 E].
  pose proof (aperture_text_fraction env tags tag num denom n d
                Htag Hp Hn Hd Hfn Hfd) as Ha.
  unfold PyFloat.truediv in Ha. rewrite Hz in Ha. cbn in Ha.
  rewrite E, (extract_fields_aperture_raises env tags _ Ha).
  eexists _, w1. split; reflexivity.
Qed.

End ExtractClaims.

(** ** The renderer *)

Section RenderFacts.

Lemma add_calls_nil (draw : Image) : add_calls draw [] = draw.
Proof. destruct draw. unfold add_calls. cbn. now rewrite app_nil_r. Qed.

Lemma add_calls_app (draw : Image) (a b : list draw_call) :
  add_calls (add_calls draw a) b = add_calls draw (a ++ b).
Proof. unfold add_calls. cbn. now rewrite app_assoc. Qed.

Lemma draw_text_add (draw : Image) (xy : Z * Z) (text : string)
    (font : Font) (fill : color) :
  draw_text draw xy text font fill = add_calls draw [DrawText xy text font fill].
Proof. reflexivity. Qed.

(** The inner loop: one shadow per offset that is kept. *)
Lemma inner_loop_calls (x y offset_x : Z) (text : string) (font : Font)
    (shadow_color : color) (offsets : list Z) (draw : Image) :
  foldl (fun draw offset_y =>
           if negb (offset_x =? 0) || negb (offset_y =? 0) then
             draw_text draw (x + offset_x, y + offset_y) text font shadow_color
           else draw) draw offsets
  = add_calls draw
      (map (fun offset => DrawText (x + fst offset, y + snd offset)
                            text font shadow_color)
         (flat_map (fun offset_y =>
                      if negb (offset_x =? 0) || negb (offset_y =? 0)
                      then [(offset_x, offset_y)] else []) offsets)).
Proof.
  revert draw. induction offsets as [|offset_y offsets IH]; intros draw; cbn.
  - now rewrite add_calls_nil.
  - rewrite IH.
    destruct (negb (offset_x =? 0) || negb (offset_y =? 0)); cbn.
    + now rewrite draw_text_add, add_calls_app.
    + reflexivity.
Qed.

(** The two nested loops, over any two lists of offsets. *)
Lemma nested_loops_calls (x y : Z) (text : string) (font : Font)
    (shadow_color : color) (inner outer : list Z) (draw : Image) :
  foldl (fun draw offset_x =>
           foldl (fun draw offset_y =>
                    if negb (offset_x =? 0) || negb (offset_y =? 0) then
                      draw_text draw (x + offset_x, y + offset_y) text font
                        shadow_color
                    else draw) draw inner) draw outer
  = add_calls draw
      (map (fun offset => DrawText (x + fst offset, y + snd offset)
                            text font shadow_color)
         (flat_map (fun offset_x =>
            flat_map (fun offset_y =>
              if negb (offset_x =? 0) || negb (offset_y =? 0)
              then [(offset_x, offset_y)] else []) inner) outer)).
Proof.
  revert draw. induction outer as [|offset_x outer IH]; intros draw; cbn.
  - now rewrite add_calls_nil.
  - rewrite inner_loop_calls, IH, add_calls_app, map_app. reflexivity.
Qed.

(** The whole of [create_text_with_shadow]: the shadows in loop order,
    then the text. *)
Lemma create_text_with_shadow_add (draw : Image) (position : Z * Z)
    (text : string) (font : Font) (text_color shadow_color : color)
    (shadow_offset : Z) :
  create_text_with_shadow draw position text font text_color shadow_color
    shadow_offset
  = add_calls draw
      (shadowed position text font text_color shadow_color shadow_offset).
Proof.
  destruct position as [x y].
  unfold create_text_with_shadow, shadowed, shadow_offsets.
  rewrite nested_loops_calls, draw_text_add, add_calls_app. reflexivity.
Qed.

(** A missing or broken font file is not fatal: the default font is
    loaded instead. *)
Lemma resolve_font_falls_back (env : Env) (font : Font) :
  load_default env = Ok font -> exists font', resolve_font env = Ok font'.
Proof.
  intros Hdefault. unfold resolve_font. rewrite Hdefault.
  destruct (first_font env font_paths) as [[font'|]|e]; cbn; eauto.
Qed.

End RenderFacts.

Section RenderClaims.

Variable env : Env.

(** C5: a line is drawn by 24 calls in black, one at each offset
    (dx, dy) with dx and dy between -2 and 2 other than (0, 0), each
    offset once, and after them by one call in white at the position
    itself.  [overlay_metadata] draws every line this way. *)
Theorem create_text_with_shadow_calls (draw : Image) (x y : Z)
    (text : string) (font : Font) :
  create_text_with_shadow draw (x, y) text font white black 2
  = add_calls draw
      (map (fun offset => DrawText (x + fst offset, y + snd offset)
                            text font black) (shadow_offsets 2)
       ++ [DrawText (x, y) text font white])
  /\ length (shadow_offsets 2) = 24%nat
  /\ NoDup (shadow_offsets 2)
  /\ (forall dx dy,
        (dx, dy) ∈ shadow_offsets 2
        <-> -2 <= dx <= 2 /\ -2 <= dy <= 2 /\ (dx, dy) <> (0, 0)).
Proof.
  split; [apply create_text_with_shadow_add|].
  split; [reflexivity|].
  split; [apply (bool_decide_unpack _); vm_compute; exact I|].
  intros dx dy.
  let offsets := eval vm_compute in (shadow_offsets 2) in
  change (shadow_offsets 2) with offsets.
  split.
  - rewrite !elem_of_cons, elem_of_nil.
    intros H. repeat destruct H as [H|H]; try contradiction;
      injection H as -> ->; (split; [lia | split; [lia | discriminate]]).
  - intros (Hx & Hy & Hne).
    assert (Ex : dx = -2 \/ dx = -1 \/ dx = 0 \/ dx = 1 \/ dx = 2) by lia.
    assert (Ey : dy = -2 \/ dy = -1 \/ dy = 0 \/ dy = 1 \/ dy = 2) by lia.
    destruct Ex as [->|[->|[->|[->| ->]]]];
      destruct Ey as [->|[->|[->|[->| ->]]]];
      try (now destruct Hne);
      rewrite !elem_of_cons; tauto.
Qed.

Lemma getitem_get (key value : string) (metadata : PyDict.dict) :
  PyDict.get key metadata = Some value ->
  PyDict.getitem key metadata = Ok value.
Proof. intros H. unfold PyDict.getitem. now rewrite H. Qed.


(** C7, as the code has it: when measuring the datetime raises, the
    renderer does not fall back to the left margin; the exception
    leaves [overlay_metadata] and no image is returned. *)
Theorem overlay_metadata_unmeasurable (image : Image)
    (metadata : PyDict.dict) (w : World)
    (camera lens aperture shutter iso datetime : string)
    (font : Font) (e : exn) :
  PyDict.get "camera" metadata = Some camera ->
  PyDict.get "lens" metadata = Some lens ->
  PyDict.get "aperture" metadata = Some aperture ->
  PyDict.get "shutter" metadata = Some shutter ->
  PyDict.get "iso" metadata = Some iso ->
  PyDict.get "datetime" metadata = Some datetime ->
  resolve_font env = Ok font ->
  textbbox env (0, 0) datetime font = Raise e ->
  exists w', overlay_metadata env image metadata w = (Raise e, w').
Proof.
  intros Hc Hl Ha Hs Hi Hd Hfont Hbox.
  unfold overlay_metadata, print, lift, mbind at 1, M_bind.
  rewrite Hfont. cbn [mbind exc_bind size].
  rewrite (getitem_get _ _ _ Hc), (getitem_get _ _ _ Hl),
    (getitem_get _ _ _ Ha), (getitem_get _ _ _ Hs), (getitem_get _ _ _ Hi),
    (getitem_get _ _ _ Hd).
  cbn [mbind exc_bind draw_left foldl length draw_right copy].
  rewrite Hbox. cbn [mbind exc_bind]. eexists. reflexivity.
Qed.

End RenderClaims.

(** ** The whole run *)

Section KeepsFiles.

Variable env : Env.

Lemma keeps_files_ret {A} (a : A) : keeps_files (mret a).
Proof. intros w outcome w' [= <- <-]. split; reflexivity. Qed.

Lemma keeps_files_lift {A} (m : exc A) : keeps_files (lift m).
Proof. intros w outcome w' [= <- <-]. split; reflexivity. Qed.

Lemma keeps_files_print (line : string) : keeps_files (print line).
Proof. intros w outcome w' [= <- <-]. split; reflexivity. Qed.

Lemma keeps_files_requests_get (url : string) (timeout : Z) :
  keeps_files (requests_get env url timeout).
Proof. intros w outcome w' [= <- <-]. split; reflexivity. Qed.

Lemma keeps_files_bind {A B} (m : M A) (f : A -> M B) :
  keeps_files m -> (forall a, keeps_files (f a)) -> keeps_files (m ≫= f).
Proof.
  intros Hm Hf w outcome w'. unfold mbind, M_bind.
  destruct (m w) as [[a|e] w1] eqn:E; intros H.
  - destruct (Hm _ _ _ E) as [F1 S1], (Hf a _ _ _ H) as [F2 S2].
    split; congruence.
  - injection H as <- <-. exact (Hm _ _ _ E).
Qed.

(** A bind that raises: either its first statement raised, or it ran
    and left the files and the error stream alone. *)
Lemma bind_raise_keeps {A B} (m : M A) (f : A -> M B) (w w' : World) (e : exn) :
  keeps_files m ->
  (m ≫= f) w = (Raise e, w') ->
  (files w' = files w /\ stderr w' = stderr w)
  \/ exists a w1,
       files w1 = files w /\ stderr w1 = stderr w /\ f a w1 = (Raise e, w').
Proof.
  intros Hm H.
  destruct (bind_raise_inv m f w w' e H) as [E | (a & w1 & E & F)].
  - left. exact (Hm _ _ _ E).
  - right. exists a, w1. destruct (Hm _ _ _ E) as [F1 S1]. now repeat split.
Qed.

Create HintDb keeps.
#[local] Hint Resolve keeps_files_ret keeps_files_lift keeps_files_print
  keeps_files_requests_get : keeps.

Ltac keeps :=
  repeat (apply keeps_files_bind; [|intros ?]); auto with keeps.

Lemma keeps_files_download_image (url : string) :
  keeps_files (download_image env url).
Proof. unfold download_image. keeps. Qed.

Lemma keeps_files_extract_exif_data (url : string) :
  keeps_files (extract_exif_data env url).
Proof. unfold extract_exif_data. keeps. Qed.

Lemma keeps_files_overlay_metadata (image : Image) (metadata : PyDict.dict) :
  keeps_files (overlay_metadata env image metadata).
Proof. unfold overlay_metadata. keeps. Qed.

Lemma keeps_files_print_items (items : PyDict.dict) :
  keeps_files (print_items items).
Proof.
  induction items as [|[key value] items IH]; cbn [print_items].
  - apply keeps_files_ret.
  - apply keeps_files_bind; [apply keeps_files_print | intros _; exact IH].
Qed.

(** A run that raises: the error stream is as it was, and so are the
    files unless the exception is the writer's own. *)
Lemma main_try_raise_inv (w w1 : World) (e : exn) :
  main_try env w = (Raise e, w1) ->
  stderr w1 = stderr w
  /\ (files w1 = files w
      \/ exists image metadata composited wa wb,
           overlay_metadata env image metadata wa = (Ok composited, wb)
           /\ save env composited OUTPUT_FILENAME "JPEG" 95 (files w)
              = (Raise e, files w1)).
Proof.
  unfold main_try. intros H.
  apply bind_raise_keeps in H as [[F S] | (image & w2 & F2 & S2 & H)];
    [now split; [|left] | | apply keeps_files_download_image].
  apply bind_raise_keeps in H as [[F S] | (metadata & w3 & F3 & S3 & H)];
    [split; [|left]; congruence | | apply keeps_files_extract_exif_data].
  apply bind_raise_keeps in H as [[F S] | ([] & w4 & F4 & S4 & H)];
    [split; [|left]; congruence | | apply keeps_files_print].
  apply bind_raise_keeps in H as [[F S] | ([] & w5 & F5 & S5 & H)];
    [split; [|left]; congruence | | apply keeps_files_print_items].
  destruct (bind_raise_inv _ _ _ _ _ H) as [E | (composited & w6 & E & H6)].
  { destruct (keeps_files_overlay_metadata _ _ _ _ _ E) as [F S].
    split; [|left]; congruence. }
  destruct (keeps_files_overlay_metadata _ _ _ _ _ E) as [F6 S6].
  unfold mbind, M_bind, Image_save, print, mret, M_ret in H6.
  destruct (save env composited OUTPUT_FILENAME "JPEG" 95 (files w6))
    as [[[]|e1] fs] eqn:Esave; [discriminate|].
  injection H6 as -> <-. cbn.
  split; [congruence|]. right.
  exists image, metadata, composited, w5, w6. split; [exact E|].
  replace (files w) with (files w6) by congruence. exact Esave.
Qed.

(** A successful run: the steps it went through. *)
Lemma main_try_ok_inv (w w1 : World) (code : Z) :
  main_try env w = (Ok code, w1) ->
  code = 0 /\ stderr w1 = stderr w
  /\ exists image metadata composited wa wb,
       overlay_metadata env image metadata wa = (Ok composited, wb)
       /\ save env composited OUTPUT_FILENAME "JPEG" 95 (files w)
          = (Ok tt, files w1).
Proof.
  unfold main_try. intros H.
  apply bind_ok_inv in H as (image & w2 & E2 & H).
  apply bind_ok_inv in H as (metadata & w3 & E3 & H).
  apply bind_ok_inv in H as ([] & w4 & E4 & H).
  apply bind_ok_inv in H as ([] & w5 & E5 & H).
  apply bind_ok_inv in H as (composited & w6 & E6 & H).
  apply bind_ok_inv in H as ([] & w7 & E7 & H).
  apply bind_ok_inv in H as ([] & w8 & E8 & H).
  injection H as <- <-.
  destruct (keeps_files_download_image _ _ _ _ E2) as [F2 S2].
  destruct (keeps_files_extract_exif_data _ _ _ _ E3) as [F3 S3].
  destruct (keeps_files_print _ _ _ _ E4) as [F4 S4].
  destruct (keeps_files_print_items _ _ _ _ E5) as [F5 S5].
  destruct (keeps_files_overlay_metadata _ _ _ _ _ E6) as [F6 S6].
  destruct (keeps_files_print _ _ _ _ E8) as [F8 S8].
  unfold Image_save in E7.
  destruct (save env composited OUTPUT_FILENAME "JPEG" 95 (files w6))
    as [outcome fs] eqn:E.
  injection E7 as -> <-. cbn in F8, S8.
  split; [reflexivity|]. split; [congruence|].
  exists image, metadata, composited, w5, w6. split; [exact E6|].
  replace (files w) with (files w6) by congruence.
  rewrite E. now rewrite F8.
Qed.

End KeepsFiles.

Section MainClaims.

Variable env : Env.


(** C9: when the two fetches of the reference pipeline are answered
    with the same bytes, a pipeline that fetches once and decodes the
    image and the tags from that one buffer ends as the reference
    pipeline does: with the same metadata and the same composite image,
    or with the same exception. *)
Theorem single_fetch_refines (url : string) (w : World)
    (first second : Response) :
  network env url 30 (requests_sent w) = Ok first ->
  network env url 30 (S (requests_sent w)) = Ok second ->
  raise_for_status env first = Ok tt ->
  raise_for_status env second = Ok tt ->
  content first = content second ->
  fst (single_fetch_pipeline env url w) = fst (reference_pipeline env url w).
Proof.
  intros H1 H2 S1 S2 Hsame.
  unfold single_fetch_pipeline, reference_pipeline, fetch, download_image,
    extract_exif_data, requests_get, print, lift, overlay_metadata,
    mbind, M_bind, mret, M_ret.
  cbn. rewrite H1, S1. cbn. rewrite H2, S2, <- Hsame.
  destruct (Image_open env (content first)) as [image|e]; [|reflexivity].
  destruct (process_file env (content first)) as [tags|e]; [|reflexivity].
  destruct (extract_fields env tags) as [metadata|e]; [|reflexivity].
  match goal with
  | |- context [match ?m with Ok _ => _ | Raise _ => _ end] => destruct m
  end; reflexivity.
Qed.

End MainClaims.

(** ** The claims on concrete runs *)

Lemma demo_reads_tags (tags : gmap string IfdTag) (measure : bool) (w : World) :
  reads_tags (Demo.env 200 tags measure) SAMPLE_IMAGE_URL w tags.
Proof. exists (Demo.response 200). repeat split; reflexivity. Qed.

(** No tag at all: every field is its fallback. *)
Lemma extract_exif_data_fully_populated_witness :
  exists metadata w',
    extract_exif_data (Demo.env 200 ∅ true) SAMPLE_IMAGE_URL Demo.world
    = (Ok metadata, w')
    /\ PyDict.keys metadata = fields
    /\ PyDict.get "camera" metadata = Some "Unknown Camera"
    /\ PyDict.get "datetime" metadata = Some "Unknown Date".
Proof.
  destruct (extract_exif_data (Demo.env 200 ∅ true) SAMPLE_IMAGE_URL Demo.world)
    as [[metadata|e] w'] eqn:Hrun; [|vm_compute in Hrun; discriminate].
  exists metadata, w'. split; [reflexivity|].
  destruct (extract_exif_data_fully_populated (Demo.env 200 ∅ true)
              SAMPLE_IMAGE_URL Demo.world w' ∅ metadata
              (demo_reads_tags ∅ true Demo.world) Hrun)
    as (Hkeys & _ & Hcamera & _ & _ & _ & _ & Hdate).
  split; [exact Hkeys|]. split; [apply Hcamera | apply Hdate]; reflexivity.
Defined.

(** The timestamp of the sample photograph. *)
Lemma extract_exif_data_datetime_witness :
  exists metadata w',
    extract_exif_data (Demo.env 200 Demo.canon_tags true) SAMPLE_IMAGE_URL
      Demo.world = (Ok metadata, w')
    /\ PyDict.get "datetime" metadata = Some "2008-05-30 15:56:01".
Proof.
  destruct (extract_exif_data_datetime (Demo.env 200 Demo.canon_tags true)
              SAMPLE_IMAGE_URL Demo.world Demo.canon_tags
              (demo_reads_tags Demo.canon_tags true Demo.world))
    as (Hform & _ & _).
  apply (Hform (Demo.tag "2008:05:30 15:56:01") "2008" "05" "30" "15" "56" "01"
           "f/7.1"); vm_compute; reflexivity.
Defined.



(** The fraction 8/0. *)
Lemma extract_exif_data_zero_denominator_witness :
  exists e w',
    extract_exif_data
      (Demo.env 200 (<["EXIF FNumber" := Demo.tag "8/0"]> ∅) true)
      SAMPLE_IMAGE_URL Demo.world = (Raise e, w')
    /\ exn_class e = ZeroDivisionError.
Proof.
  apply (extract_exif_data_zero_denominator
           (Demo.env 200 (<["EXIF FNumber" := Demo.tag "8/0"]> ∅) true)
           SAMPLE_IMAGE_URL Demo.world
           (<["EXIF FNumber" := Demo.tag "8/0"]> ∅) (Demo.tag "8/0")
           "8" "0" (PyFloat.of_Z 8) (PyFloat.of_Z 0)
           (demo_reads_tags _ true Demo.world));
    vm_compute; reflexivity.
Defined.


(** C7 fails on the code: with a font whose text cannot be measured the
    renderer raises, and returns no image. *)
Lemma overlay_metadata_no_fallback :
  resolve_font (Demo.env 200 ∅ false) = Ok DefaultFont
  /\ textbbox (Demo.env 200 ∅ false) (0, 0) "2020-01-01 00:00:00" DefaultFont
     = Raise (Exn ValueError "Only supported for TrueType fonts")
  /\ fst (overlay_metadata (Demo.env 200 ∅ false) Demo.image Demo.metadata
            Demo.world)
     = Raise (Exn ValueError "Only supported for TrueType fonts").
Proof. repeat split; vm_compute; reflexivity. Qed.

Lemma overlay_metadata_unmeasurable_witness :
  exists w',
    overlay_metadata (Demo.env 200 ∅ false) Demo.image Demo.metadata Demo.world
    = (Raise (Exn ValueError "Only supported for TrueType fonts"), w').
Proof.
  exact (overlay_metadata_unmeasurable (Demo.env 200 ∅ false) Demo.image
           Demo.metadata Demo.world "Test Cam" "Test Lens" "f/2.0" "1/100s"
           "ISO 200" "2020-01-01 00:00:00" DefaultFont
           (Exn ValueError "Only supported for TrueType fonts")
           eq_refl eq_refl eq_refl eq_refl eq_refl eq_refl eq_refl eq_refl).
Defined.

Lemma demo_save_failure_keeps_files (status : Z) (tags : gmap string IfdTag)
    (measure : bool) :
  save_failure_keeps_files (Demo.env status tags measure).
Proof. intros image name format quality fs e fs' H. discriminate. Qed.


(** The two fetches of the demo server answer alike. *)
Lemma single_fetch_refines_witness :
  fst (single_fetch_pipeline (Demo.env 200 Demo.canon_tags true)
         SAMPLE_IMAGE_URL Demo.world)
  = fst (reference_pipeline (Demo.env 200 Demo.canon_tags true)
           SAMPLE_IMAGE_URL Demo.world).
Proof.
  exact (single_fetch_refines (Demo.env 200 Demo.canon_tags true)
           SAMPLE_IMAGE_URL Demo.world (Demo.response 200) (Demo.response 200)
           eq_refl eq_refl eq_refl eq_refl eq_refl).
Defined.

(** ** The examples of the specification, by evaluation *)

Example format_1f_8 :
  PyFloat.format_1f
    (SFdiv PyFloat.prec PyFloat.emax (PyFloat.of_Z 8) (PyFloat.of_Z 1)) = "8.0".
Proof. vm_compute. reflexivity. Qed.

(** 3/20 is the double just below 0.15, and 1/4 is a tie that goes to the
    even digit. *)
Example format_1f_below_tie :
  PyFloat.format_1f
    (SFdiv PyFloat.prec PyFloat.emax (PyFloat.of_Z 3) (PyFloat.of_Z 20)) = "0.1".
Proof. vm_compute. reflexivity. Qed.

Example format_1f_exact_tie :
  PyFloat.format_1f
    (SFdiv PyFloat.prec PyFloat.emax (PyFloat.of_Z 1) (PyFloat.of_Z 4)) = "0.2".
Proof. vm_compute. reflexivity. Qed.

Example split_fraction : PyStr.split "/" "28/10" = ["28"; "10"].
Proof. reflexivity. Qed.

Example split_keeps_empty_pieces : PyStr.split " " " a  b" = [""; "a"; ""; "b"].
Proof. reflexivity. Qed.

Example strip_example : PyStr.strip "  Canon EOS 40D " = "Canon EOS 40D".
Proof. reflexivity. Qed.

Example camera_make_and_model :
  camera_text (<["Image Make" := Demo.tag "Canon"]>
               (<["Image Model" := Demo.tag "EOS 40D"]> ∅)) = "Canon EOS 40D".
Proof. vm_compute. reflexivity. Qed.

Example camera_model_only :
  camera_text (<["Image Model" := Demo.tag "EOS 40D"]> ∅) = "EOS 40D".
Proof. vm_compute. reflexivity. Qed.

Example camera_make_only :
  camera_text (<["Image Make" := Demo.tag "Canon"]> ∅) = "Unknown Camera".
Proof. vm_compute. reflexivity. Qed.

Example aperture_plain_number :
  aperture_text (Demo.env 200 ∅ true) (<["EXIF FNumber" := Demo.tag "4"]> ∅)
  = Ok "f/4".
Proof. vm_compute. reflexivity. Qed.

Example aperture_three_pieces :
  aperture_text (Demo.env 200 ∅ true) (<["EXIF FNumber" := Demo.tag "1/2/3"]> ∅)
  = Raise (Exn ValueError "too many values to unpack (expected 2)").
Proof. vm_compute. reflexivity. Qed.

Example datetime_without_space :
  datetime_text (<["EXIF DateTimeOriginal" := Demo.tag "2008:05:30T15:56:01"]> ∅)
  = Raise (Exn ValueError "not enough values to unpack (expected 2, got 1)").
Proof. vm_compute. reflexivity. Qed.

Example demo_extract :
  fst (extract_exif_data (Demo.env 200 Demo.canon_tags true)
         SAMPLE_IMAGE_URL Demo.world)
  = Ok [ ("camera", "Canon Canon EOS 40D"); ("lens", "Unknown Lens");
         ("aperture", "f/7.1"); ("shutter", "1/160s"); ("iso", "ISO 100");
         ("datetime", "2008-05-30 15:56:01") ].
Proof. vm_compute. reflexivity. Qed.

(** A full run: exit code 0, two requests, the file written. *)
Example demo_main_ok :
  let '(code, w) := main (Demo.env 200 Demo.canon_tags true) Demo.world in
  code = Ok 0 /\ requests_sent w = 2%nat /\ stderr w = []
  /\ files w !! OUTPUT_FILENAME = Some (raster Demo.image).
Proof. vm_compute. repeat split; reflexivity. Qed.

(** A zero denominator reaches the top level. *)
Example demo_main_zero_denominator :
  let '(code, w) :=
    main (Demo.env 200 (<["EXIF FNumber" := Demo.tag "8/0"]> ∅) true)
      Demo.world in
  code = Ok 1
  /\ stderr w = [newline +:+ "❌ Error: float division by zero"]
  /\ files w = ∅.
Proof. vm_compute. repeat split; reflexivity. Qed.

(** Without text measurement the run ends in the handler. *)
Example demo_main_unmeasurable :
  fst (main (Demo.env 200 Demo.canon_tags false) Demo.world) = Ok 1.
Proof. vm_compute. reflexivity. Qed.

(** * Further properties of the script *)

(** ** More on the string methods *)

Section PyStrMore.

Import PyStr.

Lemma count_contains (c : ascii) (s : string) :
  count c s <> O -> contains c s = true.
Proof.
  induction s as [|c' s IH]; cbn; [congruence|].
  destruct (Ascii.eqb c' c); [reflexivity | exact IH].
Qed.

(** Two pieces: the string is the first piece, the separator and the
    second piece, and the separator occurs nowhere else. *)
Lemma split_two (c : ascii) (s a b : string) :
  split c s = [a; b] ->
  s = a +:+ String c b /\ contains c a = false /\ contains c b = false.
Proof.
  intros H. pose proof (join_split c s) as Hjoin.
  pose proof (split_pieces c s) as Hpieces. rewrite H in Hjoin, Hpieces.
  apply Forall_cons in Hpieces as [Ha Hrest].
  apply Forall_cons in Hrest as [Hb _].
  split; [symmetry; exact Hjoin | split; assumption].
Qed.

Lemma count_one_split (c : ascii) (s : string) :
  count c s = 1%nat -> exists a b, split c s = [a; b].
Proof.
  intros H. pose proof (split_length c s) as Hlen. rewrite H in Hlen.
  destruct (split c s) as [|a [|b [|x rest]]]; try discriminate.
  now exists a, b.
Qed.

Lemma unpack2_ok_inv (pieces : list string) (a b : string) :
  unpack2 pieces = Ok (a, b) -> pieces = [a; b].
Proof.
  destruct pieces as [|x [|y [|z rest]]]; cbn; intros H; try discriminate.
  now injection H as -> ->.
Qed.

(** After [replace old new], nothing of [old] is left. *)
Lemma replace_removes (old new : ascii) (s : string) :
  old <> new -> contains old (replace old new s) = false.
Proof.
  intros Hne. induction s as [|c s IH]; cbn; [reflexivity|].
  destruct (Ascii.eqb c old) eqn:E.
  - destruct (Ascii.eqb new old) eqn:E'; [|exact IH].
    apply Ascii.eqb_eq in E'. congruence.
  - now rewrite E.
Qed.

End PyStrMore.

(** ** More on the extractor *)

Section ExtractMore.

Variable env : Env.

(** The timestamp rule succeeds exactly on one space. *)
Lemma datetime_text_one_space_split (tags : gmap string IfdTag) (tag : IfdTag) :
  tags !! "EXIF DateTimeOriginal" = Some tag ->
  PyStr.count " " (printable tag) = 1%nat ->
  exists date time,
    printable tag = date +:+ " " +:+ time
    /\ PyStr.contains " " date = false /\ PyStr.contains " " time = false
    /\ datetime_text tags = Ok (PyStr.replace ":" "-" date +:+ " " +:+ time).
Proof.
  intros Htag Hc.
  destruct (count_one_split _ _ Hc) as (date & time & Hsplit).
  destruct (split_two _ _ _ _ Hsplit) as (Hp & Hd & Ht).
  exists date, time. repeat split; try assumption.
  unfold datetime_text. rewrite Htag. cbn. now rewrite Hsplit.
Qed.

Lemma datetime_text_ok_count (tags : gmap string IfdTag) (tag : IfdTag)
    (d : string) :
  tags !! "EXIF DateTimeOriginal" = Some tag ->
  datetime_text tags = Ok d ->
  PyStr.count " " (printable tag) = 1%nat.
Proof.
  intros Htag Hd.
  destruct (decide (PyStr.count " " (printable tag) = 1%nat)) as [E|E];
    [exact E|].
  destruct (datetime_text_malformed tags tag Htag E) as (e & He & _).
  congruence.
Qed.

(** X1: in a successful extraction the lens field is the text of the
    lens tag, the shutter field the text of the exposure-time tag followed
    by "s", and the iso field "ISO " followed by the text of the ISO tag;
    an absent tag gives the fallback.  A present tag is used whatever its
    text, an empty one included. *)
Theorem extract_exif_data_lens_shutter_iso (url : string) (w w' : World)
    (tags : gmap string IfdTag) (metadata : PyDict.dict) :
  reads_tags env url w tags ->
  extract_exif_data env url w = (Ok metadata, w') ->
  PyDict.get "lens" metadata
  = Some match tags !! "EXIF LensModel" with
         | Some tag => printable tag
         | None => "Unknown Lens"
         end
  /\ PyDict.get "shutter" metadata
     = Some match tags !! "EXIF ExposureTime" with
            | Some tag => printable tag +:+ "s"
            | None => "?s"
            end
  /\ PyDict.get "iso" metadata
     = Some match tags !! "EXIF ISOSpeedRatings" with
            | Some tag => "ISO " +:+ printable tag
            | None => "ISO ?"
            end.
Proof.
  intros Hr H.
  destruct (extract_exif_data_inv env url w w' tags metadata Hr H)
    as (a & d & Ha & Hd & ->).
  cbn. unfold lens_text, shutter_text, iso_text.
  destruct (tags !! "EXIF LensModel"), (tags !! "EXIF ExposureTime"),
    (tags !! "EXIF ISOSpeedRatings"); repeat split; reflexivity.
Qed.

(** X2: an f-number with two slashes or more makes the extraction raise
    [ValueError]: the split gives more pieces than the two names
    unpacked. *)
Theorem extract_exif_data_many_slashes (url : string) (w : World)
    (tags : gmap string IfdTag) (tag : IfdTag) :
  reads_tags env url w tags ->
  tags !! "EXIF FNumber" = Some tag ->
  (2 <= PyStr.count "/" (printable tag))%nat ->
  exists e w',
    extract_exif_data env url w = (Raise e, w')
    /\ exn_class e = ValueError.
Proof.
  intros Hr Htag Hc.
  destruct (extract_exif_data_reads env url w tags Hr) as [w1 E].
  destruct (unpack2_wrong_length (PyStr.split "/" (printable tag)))
    as (e & He & Hclass).
  { rewrite split_length. lia. }
  assert (Ha : aperture_text env tags = Raise e).
  { unfold aperture_text. rewrite Htag. cbn.
    rewrite count_contains by lia. now rewrite He. }
  rewrite E, (extract_fields_aperture_raises env tags e Ha).
  exists e, w1. split; [reflexivity | exact Hclass].
Qed.

(** X3: when [float] rejects the numerator of a fraction, or accepts it
    and rejects the denominator, the extraction raises that very
    exception. *)
Theorem extract_exif_data_float_rejects (url : string) (w : World)
    (tags : gmap string IfdTag) (tag : IfdTag) (num denom : string)
    (e : exn) :
  reads_tags env url w tags ->
  tags !! "EXIF FNumber" = Some tag ->
  printable tag = num +:+ "/" +:+ denom ->
  PyStr.contains "/" num = false ->
  PyStr.contains "/" denom = false ->
  float env num = Raise e
  \/ (succeeds (float env num) = true /\ float env denom = Raise e) ->
  exists w', extract_exif_data env url w = (Raise e, w').
Proof.
  intros Hr Htag Hp Hn Hd Hfloat.
  destruct (extract_exif_data_reads env url w tags Hr) as [w1 E].
  assert (Ha : aperture_text env tags = Raise e).
  { unfold aperture_text. rewrite Htag. cbn. rewrite Hp.
    change (num +:+ "/" +:+ denom) with (num +:+ String "/" denom).
    rewrite contains_app, contains_cons_same, orb_true_r.
    rewrite (split_app_sep _ _ _ Hn), (split_absent _ _ Hd). cbn.
    destruct Hfloat as [Hnum | [Hnum Hden]].
    - now rewrite Hnum.
    - destruct (float env num); [|discriminate]. cbn. now rewrite Hden. }
  rewrite E, (extract_fields_aperture_raises env tags e Ha).
  exists w1. reflexivity.
Qed.

(** When the aperture rule succeeds. *)
Lemma aperture_text_ok_iff (tags : gmap string IfdTag) :
  succeeds (aperture_text env tags) = true
  <-> match tags !! "EXIF FNumber" with
      | None => True
      | Some tag =>
          PyStr.contains "/" (printable tag) = false
          \/ exists num denom n d,
               PyStr.split "/" (printable tag) = [num; denom]
               /\ float env num = Ok n /\ float env denom = Ok d
               /\ PyFloat.is_zero d = false
      end.
Proof.
  unfold aperture_text.
  destruct (tags !! "EXIF FNumber") as [tag|]; cbn; [|tauto].
  destruct (PyStr.contains "/" (printable tag)) eqn:Hslash; [|cbn; tauto].
  split.
  - intros H. right.
    destruct (PyStr.unpack2 (PyStr.split "/" (printable tag)))
      as [[num denom]|e] eqn:Hu; [|discriminate].
    apply unpack2_ok_inv in Hu. cbn in H.
    destruct (float env num) as [n|e] eqn:Hn; [|discriminate]. cbn in H.
    destruct (float env denom) as [d|e] eqn:Hd; [|discriminate]. cbn in H.
    unfold PyFloat.truediv in H.
    destruct (PyFloat.is_zero d) eqn:Hz; [discriminate|].
    now exists num, denom, n, d.
  - intros [H | (num & denom & n & d & Hs & Hn & Hd & Hz)]; [discriminate|].
    rewrite Hs. cbn. rewrite Hn. cbn. rewrite Hd. cbn.
    unfold PyFloat.truediv. now rewrite Hz.
Qed.

(** X4: once the tags are read, the extraction succeeds exactly when the
    f-number is absent, or holds no slash, or is two pieces that [float]
    accepts with a non-zero denominator, and the timestamp is absent or
    holds exactly one space.  No other tag can make it fail. *)
Theorem extract_exif_data_succeeds_iff (url : string) (w : World)
    (tags : gmap string IfdTag) :
  reads_tags env url w tags ->
  (exists metadata w', extract_exif_data env url w = (Ok metadata, w'))
  <-> match tags !! "EXIF FNumber" with
      | None => True
      | Some tag =>
          PyStr.contains "/" (printable tag) = false
          \/ exists num denom n d,
               PyStr.split "/" (printable tag) = [num; denom]
               /\ float env num = Ok n /\ float env denom = Ok d
               /\ PyFloat.is_zero d = false
      end
      /\ match tags !! "EXIF DateTimeOriginal" with
         | None => True
         | Some tag => PyStr.count " " (printable tag) = 1%nat
         end.
Proof.
  intros Hr. destruct (extract_exif_data_reads env url w tags Hr) as [w1 E].
  rewrite <- aperture_text_ok_iff. split.
  - intros (metadata & w' & H).
    destruct (extract_exif_data_inv env url w w' tags metadata Hr H)
      as (a & d & Ha & Hd & _).
    split; [now rewrite Ha|].
    destruct (tags !! "EXIF DateTimeOriginal") as [tag|] eqn:Htag; [|exact I].
    exact (datetime_text_ok_count tags tag d Htag Hd).
  - intros [Ha Hd].
    destruct (aperture_text env tags) as [a|e] eqn:Ea; [|discriminate].
    assert (exists d, datetime_text tags = Ok d) as [d Ed].
    { destruct (tags !! "EXIF DateTimeOriginal") as [tag|] eqn:Htag.
      - destruct (datetime_text_one_space_split tags tag Htag Hd)
          as (date & time & _ & _ & _ & Hdt).
        eauto.
      - eexists. now apply datetime_text_absent. }
    rewrite E, (extract_fields_ok env tags a d Ea Ed). eauto.
Qed.

(** X5: in a successful extraction with a timestamp tag, the tag is a
    date part, one space and a time part; the datetime field is the date
    part with every colon replaced by a hyphen, however many there are,
    then the space and the time part as it is. *)
Theorem extract_exif_data_datetime_parts (url : string) (w w' : World)
    (tags : gmap string IfdTag) (metadata : PyDict.dict) (tag : IfdTag) :
  reads_tags env url w tags ->
  extract_exif_data env url w = (Ok metadata, w') ->
  tags !! "EXIF DateTimeOriginal" = Some tag ->
  exists date time,
    printable tag = date +:+ " " +:+ time
    /\ PyStr.contains " " date = false
    /\ PyStr.contains " " time = false
    /\ PyStr.contains ":" (PyStr.replace ":" "-" date) = false
    /\ PyDict.get "datetime" metadata
       = Some (PyStr.replace ":" "-" date +:+ " " +:+ time).
Proof.
  intros Hr H Htag.
  destruct (extract_exif_data_inv env url w w' tags metadata Hr H)
    as (a & d & Ha & Hd & ->).
  pose proof (datetime_text_ok_count tags tag d Htag Hd) as Hc.
  destruct (datetime_text_one_space_split tags tag Htag Hc)
    as (date & time & Hp & Hdate & Htime & Hdt).
  exists date, time. repeat split; try assumption.
  - apply replace_removes. discriminate.
  - cbn. congruence.
Qed.

(** X6: the aperture field of a successful extraction always begins
    with "f/". *)
Theorem extract_exif_data_aperture_prefix (url : string) (w w' : World)
    (tags : gmap string IfdTag) (metadata : PyDict.dict) :
  reads_tags env url w tags ->
  extract_exif_data env url w = (Ok metadata, w') ->
  exists rest, PyDict.get "aperture" metadata = Some ("f/" +:+ rest).
Proof.
  intros Hr H.
  destruct (extract_exif_data_inv env url w w' tags metadata Hr H)
    as (a & d & Ha & Hd & ->).
  cbn. unfold aperture_text in Ha.
  destruct (truthy (tags !! "EXIF FNumber")); [|injection Ha as <-; now exists "?"].
  destruct (PyStr.contains "/" (str (tags !! "EXIF FNumber")));
    [|injection Ha as <-; eauto].
  destruct (PyStr.unpack2 _) as [[num denom]|e]; [|discriminate]. cbn in Ha.
  destruct (float env num) as [n|e]; [|discriminate]. cbn in Ha.
  destruct (float env denom) as [dn|e]; [|discriminate]. cbn in Ha.
  destruct (PyFloat.truediv n dn) as [q|e]; [|discriminate]. cbn in Ha.
  injection Ha as <-. eauto.
Qed.

(** X7: when the make and the model are both present, the camera field
    neither begins nor ends with whitespace, and it is the text
    "make model" less whitespace at its two ends. *)
Theorem extract_exif_data_camera_trimmed (url : string) (w w' : World)
    (tags : gmap string IfdTag) (metadata : PyDict.dict) (make model : IfdTag) :
  reads_tags env url w tags ->
  extract_exif_data env url w = (Ok metadata, w') ->
  tags !! "Image Make" = Some make ->
  tags !! "Image Model" = Some model ->
  exists camera l r,
    PyDict.get "camera" metadata = Some camera
    /\ PyStr.starts_with_space camera = false
    /\ PyStr.ends_with_space camera = false
    /\ printable make +:+ " " +:+ printable model = l +:+ camera +:+ r
    /\ PyStr.all_space l = true /\ PyStr.all_space r = true.
Proof.
  intros Hr H Hmake Hmodel.
  destruct (extract_exif_data_inv env url w w' tags metadata Hr H)
    as (a & d & Ha & Hd & ->).
  destruct (strip_trims (printable make +:+ " " +:+ printable model))
    as (Hstart & Hend & l & r & Heq & Hl & Hr').
  exists (PyStr.strip (printable make +:+ " " +:+ printable model)), l, r.
  split; [|now repeat split].
  cbn. unfold camera_text. now rewrite Hmake, Hmodel.
Qed.

End ExtractMore.

(** ** More on the renderer *)

Section RenderMore.

Variable env : Env.

(** The search skips the paths that do not exist. *)
Lemma first_font_skip (before rest : list string) :
  (forall path, path ∈ before -> path_exists env path = false) ->
  first_font env (before ++ rest) = first_font env rest.
Proof.
  induction before as [|p before IH]; intros H; [reflexivity|].
  cbn. rewrite (H p) by apply list_elem_of_here.
  apply IH. intros path Hin. apply H. now apply list_elem_of_further.
Qed.

(** X8: the font is decided by the first candidate path that exists: it
    is that file when it loads, and the default font when loading it
    raises; the later candidates are not tried.  When no candidate exists
    it is the default font. *)
Theorem resolve_font_first_existing :
  (forall (before : list string) (path : string) (after : list string),
      font_paths = (before ++ path :: after)%list ->
      (forall p, p ∈ before -> path_exists env p = false) ->
      path_exists env path = true ->
      resolve_font env
      = match truetype env path 24 with
        | Ok font => Ok font
        | Raise _ => load_default env
        end)
  /\ ((forall p, p ∈ font_paths -> path_exists env p = false) ->
      resolve_font env = load_default env).
Proof.
  split.
  - intros before path after Hpaths Hbefore Hpath. unfold resolve_font.
    rewrite Hpaths, (first_font_skip _ _ Hbefore). cbn. rewrite Hpath.
    destruct (truetype env path 24); reflexivity.
  - intros Hnone. unfold resolve_font.
    rewrite <- (app_nil_r font_paths), (first_font_skip _ _ Hnone). cbn.
    destruct (load_default env); reflexivity.
Qed.

(** X9: resolving the font raises only when loading the default font
    raises, and then with that exception: a missing or unreadable font
    file alone never stops the renderer. *)
Theorem resolve_font_raises_only_default (e : exn) :
  resolve_font env = Raise e -> load_default env = Raise e.
Proof.
  unfold resolve_font.
  destruct (first_font env font_paths) as [[font|]|e']; cbn.
  - discriminate.
  - destruct (load_default env); [discriminate | trivial].
  - trivial.
Qed.

Lemma Ok_inj {A} (a b : A) : Ok a = Ok b -> a = b.
Proof. now intros [= ->]. Qed.

(** What a successful rendering went through. *)
Lemma overlay_metadata_ok_inv (image out : Image) (metadata : PyDict.dict)
    (w w' : World) :
  overlay_metadata env image metadata w = (Ok out, w') ->
  exists font camera lens aperture shutter iso datetime bbox_0 bbox_1 bbox_2 bbox_3,
    resolve_font env = Ok font
    /\ PyDict.get "camera" metadata = Some camera
    /\ PyDict.get "lens" metadata = Some lens
    /\ PyDict.get "aperture" metadata = Some aperture
    /\ PyDict.get "shutter" metadata = Some shutter
    /\ PyDict.get "iso" metadata = Some iso
    /\ PyDict.get "datetime" metadata = Some datetime
    /\ textbbox env (0, 0) datetime font = Ok (bbox_0, bbox_1, bbox_2, bbox_3)
    /\ out = add_calls image
               (shadowed (20, height image - 20 - 3 * 30)
                  camera font white black 2
                ++ shadowed (20, height image - 20 - 3 * 30 + 30)
                     lens font white black 2
                ++ shadowed (20, height image - 20 - 3 * 30 + 30 + 30)
                     (aperture +:+ " " +:+ shutter +:+ " " +:+ iso)
                     font white black 2
                ++ shadowed (width image - 20 - (bbox_2 - bbox_0),
                             height image - 20 - 30)
                     datetime font white black 2)
    /\ stdout w' = (stdout w ++ ["Overlaying metadata onto image..."])%list
    /\ requests_sent w' = requests_sent w.
Proof.
  unfold overlay_metadata, print, lift, mbind at 1, M_bind.
  intros H. apply pair_equal_spec in H as [H <-].
  destruct (resolve_font env) as [font|e]; [|discriminate].
  cbn [mbind exc_bind size] in H. unfold PyDict.getitem in H.
  destruct (PyDict.get "camera" metadata) as [camera|]; [|discriminate].
  cbn [mbind exc_bind] in H.
  destruct (PyDict.get "lens" metadata) as [lens|]; [|discriminate].
  cbn [mbind exc_bind] in H.
  destruct (PyDict.get "aperture" metadata) as [aperture|]; [|discriminate].
  cbn [mbind exc_bind] in H.
  destruct (PyDict.get "shutter" metadata) as [shutter|]; [|discriminate].
  cbn [mbind exc_bind] in H.
  destruct (PyDict.get "iso" metadata) as [iso|]; [|discriminate].
  cbn [mbind exc_bind] in H.
  destruct (PyDict.get "datetime" metadata) as [datetime|]; [|discriminate].
  cbn [mbind exc_bind draw_left foldl length draw_right copy] in H.
  destruct (textbbox env (0, 0) datetime font) as [[[[b0 b1] b2] b3]|e]
    eqn:Hbox; [|discriminate].
  cbn [mbind exc_bind] in H. apply Ok_inj in H as <-.
  exists font, camera, lens, aperture, shutter, iso, datetime, b0, b1, b2, b3.
  repeat split; [exact Hbox|].
  rewrite !create_text_with_shadow_add, !add_calls_app.
  unfold copy. change (Z.of_nat 3) with 3. change (Z.of_nat 1) with 1.
  rewrite Z.mul_1_l. reflexivity.
Qed.

Lemma length_shadowed_2 (position : Z * Z) (text : string) (font : Font)
    (text_color shadow_color : color) :
  length (shadowed position text font text_color shadow_color 2) = 25%nat.
Proof. unfold shadowed. rewrite length_app, length_map. reflexivity. Qed.


(** X12: with the font resolved, a dictionary that lacks a field makes
    the renderer raise [KeyError] for the first field it lacks, in the
    order camera, lens, aperture, shutter, iso, datetime. *)
Theorem overlay_metadata_missing_key (image : Image) (metadata : PyDict.dict)
    (w : World) (font : Font) (before after : list string) (key : string) :
  fields = (before ++ key :: after)%list ->
  Forall (fun k => is_Some (PyDict.get k metadata)) before ->
  PyDict.get key metadata = None ->
  resolve_font env = Ok font ->
  exists w',
    overlay_metadata env image metadata w
    = (Raise (Exn KeyError ("'" +:+ key +:+ "'")), w').
Proof.
  intros Hfields Hbefore Hkey Hfont.
  unfold overlay_metadata, print, lift, mbind at 1, M_bind.
  rewrite Hfont. cbn [mbind exc_bind size]. unfold fields in Hfields.
  unfold PyDict.getitem.
  do 6 (destruct before as [|k before];
        [injection Hfields as <- <-; rewrite Hkey; eexists; reflexivity
        |injection Hfields as <- Hfields;
         apply Forall_cons in Hbefore as [[? Hv] Hbefore];
         rewrite Hv; clear Hv; cbn [mbind exc_bind]]).
  destruct before; discriminate.
Qed.


End RenderMore.

(** ** The shadow, for any offset *)

Section ShadowMore.

Lemma in_range (z a b : Z) : In z (range a b) <-> a <= z < b.
Proof.
  unfold range. rewrite in_map_iff. split.
  - intros (i & <- & Hi). apply in_seq in Hi. lia.
  - intros H. exists (Z.to_nat (z - a)). split; [lia|]. apply in_seq. lia.
Qed.

Lemma length_range (a b : Z) : length (range a b) = Z.to_nat (b - a).
Proof. unfold range. now rewrite length_map, length_seq. Qed.

Lemma NoDup_map_seq (a : Z) (n s : nat) :
  NoDup (map (fun i => a + Z.of_nat i) (seq s n)).
Proof.
  revert s. induction n as [|n IH]; intros s; cbn; constructor; [|apply IH].
  rewrite list_elem_of_In, in_map_iff. intros (i & Hi & Hin).
  apply in_seq in Hin. lia.
Qed.

Lemma NoDup_range (a b : Z) : NoDup (range a b).
Proof. apply NoDup_map_seq. Qed.

Lemma map_seq_from (B : Type) (f : nat -> B) (m s : nat) :
  map f (seq s m) = map (fun i => f (s + i)%nat) (seq 0 m).
Proof.
  revert f s. induction m as [|m IH]; intros f s; [reflexivity|].
  cbn. rewrite Nat.add_0_r. f_equal.
  rewrite (IH f (S s)), (IH (fun i => f (s + i)%nat) 1%nat).
  apply map_ext. intros i. f_equal. lia.
Qed.

Lemma range_app (a b c : Z) :
  a <= b <= c -> range a c = (range a b ++ range b c)%list.
Proof.
  intros H. unfold range.
  replace (Z.to_nat (c - a)) with (Z.to_nat (b - a) + Z.to_nat (c - b))%nat
    by lia.
  rewrite seq_app, map_app. f_equal. cbn [plus].
  rewrite map_seq_from. apply map_ext. intros i. lia.
Qed.

(** The offsets of one column. *)
Lemma in_column (x dx dy : Z) (ys : list Z) :
  In (dx, dy)
     (flat_map (fun offset_y =>
                  if negb (x =? 0) || negb (offset_y =? 0)
                  then [(x, offset_y)] else []) ys)
  <-> dx = x /\ In dy ys /\ (dx, dy) <> (0, 0).
Proof.
  rewrite in_flat_map. split.
  - intros (y & Hy & Hin).
    destruct (negb (x =? 0) || negb (y =? 0)) eqn:E; [|contradiction].
    destruct Hin as [[= <- <-]|[]]. repeat split; [exact Hy|].
    intros [= -> ->]. discriminate.
  - intros (-> & Hy & Hne). exists dy. split; [exact Hy|].
    destruct (negb (x =? 0) || negb (dy =? 0)) eqn:E; [now left|].
    apply orb_false_elim in E as [Ex Ey].
    apply negb_false_iff, Z.eqb_eq in Ex, Ey. subst. now destruct Hne.
Qed.

Lemma NoDup_column (x : Z) (ys : list Z) :
  NoDup ys ->
  NoDup (flat_map (fun offset_y =>
                     if negb (x =? 0) || negb (offset_y =? 0)
                     then [(x, offset_y)] else []) ys).
Proof.
  induction 1 as [|y ys Hy Hys IH]; cbn; [constructor|].
  destruct (negb (x =? 0) || negb (y =? 0)); cbn; [|exact IH].
  constructor; [|exact IH].
  rewrite list_elem_of_In, in_column. intros (_ & Hin & _).
  apply Hy. now apply list_elem_of_In.
Qed.

Lemma length_column (x : Z) (ys : list Z) :
  (forall y, In y ys -> x <> 0 \/ y <> 0) ->
  length (flat_map (fun offset_y =>
                      if negb (x =? 0) || negb (offset_y =? 0)
                      then [(x, offset_y)] else []) ys)
  = length ys.
Proof.
  induction ys as [|y ys IH]; intros H; [reflexivity|]. cbn.
  assert (E : negb (x =? 0) || negb (y =? 0) = true).
  { destruct (H y (or_introl eq_refl)) as [Hx|Hy].
    - apply Z.eqb_neq in Hx. now rewrite Hx.
    - apply Z.eqb_neq in Hy. rewrite Hy. apply orb_true_r. }
  rewrite E. cbn. f_equal. apply IH. intros y' Hy'. apply H. now right.
Qed.

Lemma length_flat_map_const (A B : Type) (f : A -> list B) (k : nat)
    (l : list A) :
  (forall x, In x l -> length (f x) = k) ->
  length (flat_map f l) = (length l * k)%nat.
Proof.
  induction l as [|x l IH]; intros H; [reflexivity|]. cbn.
  rewrite length_app, (H x (or_introl eq_refl)), IH; [reflexivity|].
  intros y Hy. apply H. now right.
Qed.

(** X10: whatever the shadow offset n, the shadows are drawn at the
    offsets (dx, dy) with dx and dy between -n and n other than (0, 0),
    each once, (2n+1)^2 - 1 of them when n is not negative, and the text
    itself is drawn after them; with an offset of zero or less the text
    is drawn alone. *)
Theorem create_text_with_shadow_any_offset (n : Z) :
  (forall draw x y text font text_color shadow_color,
      create_text_with_shadow draw (x, y) text font text_color shadow_color n
      = add_calls draw
          (map (fun offset => DrawText (x + fst offset, y + snd offset)
                                text font shadow_color) (shadow_offsets n)
           ++ [DrawText (x, y) text font text_color]))
  /\ (forall dx dy,
        (dx, dy) ∈ shadow_offsets n
        <-> - n <= dx <= n /\ - n <= dy <= n /\ (dx, dy) <> (0, 0))
  /\ NoDup (shadow_offsets n)
  /\ (0 <= n ->
      Z.of_nat (length (shadow_offsets n)) = (2 * n + 1) * (2 * n + 1) - 1)
  /\ (n <= 0 -> shadow_offsets n = []).
Proof.
  assert (Hmem : forall dx dy,
             In (dx, dy) (shadow_offsets n)
             <-> - n <= dx <= n /\ - n <= dy <= n /\ (dx, dy) <> (0, 0)).
  { intros dx dy. unfold shadow_offsets. rewrite in_flat_map. split.
    - intros (x & Hx & Hin). apply in_column in Hin as (-> & Hy & Hne).
      apply in_range in Hx, Hy. repeat split; (lia || exact Hne).
    - intros (Hx & Hy & Hne). exists dx. split; [apply in_range; lia|].
      apply in_column. repeat split; [apply in_range; lia | exact Hne]. }
  split; [intros; apply create_text_with_shadow_add|].
  split; [intros dx dy; rewrite list_elem_of_In; apply Hmem|].
  split; [|split].
  - unfold shadow_offsets.
    generalize (NoDup_range (- n) (n + 1)).
    generalize (range (- n) (n + 1)) at 1 3 as xs.
    induction xs as [|x xs IH]; intros Hxs; cbn; [constructor|].
    apply NoDup_cons in Hxs as [Hx Hxs].
    apply NoDup_app. split; [apply NoDup_column, NoDup_range|].
    split; [|exact (IH Hxs)].
    intros [dx dy] Hin Hin'. apply list_elem_of_In in Hin, Hin'.
    apply in_column in Hin as (-> & _ & _).
    apply in_flat_map in Hin' as (x' & Hx' & Hin').
    apply in_column in Hin' as (-> & _ & _).
    apply Hx. now apply list_elem_of_In.
  - intros Hn. unfold shadow_offsets.
    assert (Hys : range (- n) (n + 1)
                  = (range (- n) 0 ++ range 0 1 ++ range 1 (n + 1))%list).
    { rewrite (range_app (- n) 0 (n + 1)) by lia.
      now rewrite (range_app 0 1 (n + 1)) by lia. }
    assert (Hzero : length (flat_map (fun offset_y =>
                              if negb (0 =? 0) || negb (offset_y =? 0)
                              then [(0, offset_y)] else [])
                            (range (- n) (n + 1)))
                    = (Z.to_nat n + Z.to_nat n)%nat).
    { rewrite Hys, !flat_map_app, !length_app.
      rewrite (length_column 0 (range (- n) 0)), (length_column 0 (range 1 (n + 1)))
        by (intros y Hy; apply in_range in Hy; lia).
      rewrite !length_range. change (range 0 1) with [0]. cbn. lia. }
    assert (Hform :
      flat_map (fun offset_x =>
        flat_map (fun offset_y =>
          if negb (offset_x =? 0) || negb (offset_y =? 0)
          then [(offset_x, offset_y)] else [])
          (range (- n) (n + 1)))
        (range (- n) (n + 1))
      = flat_map (fun offset_x =>
          flat_map (fun offset_y =>
            if negb (offset_x =? 0) || negb (offset_y =? 0)
            then [(offset_x, offset_y)] else [])
            (range (- n) (n + 1)))
          (range (- n) 0 ++ range 0 1 ++ range 1 (n + 1))%list).
    { rewrite <- Hys. reflexivity. }
    rewrite Hform. clear Hform Hys. rewrite !flat_map_app, !length_app.
    rewrite (length_flat_map_const _ _ _ (Z.to_nat (2 * n + 1)) (range (- n) 0)),
      (length_flat_map_const _ _ _ (Z.to_nat (2 * n + 1)) (range 1 (n + 1))).
    + change (range 0 1) with [0]. cbn [flat_map]. rewrite app_nil_r, Hzero.
      rewrite !length_range. nia.
    + intros x Hx. apply in_range in Hx.
      rewrite length_column, length_range; [f_equal; lia | intros; lia].
    + intros x Hx. apply in_range in Hx.
      rewrite length_column, length_range; [f_equal; lia | intros; lia].
  - intros Hn. destruct (shadow_offsets n) as [|[dx dy] rest];
      [reflexivity|].
    destruct (proj1 (Hmem dx dy) (or_introl eq_refl)) as (Hx & Hy & Hne).
    assert (dx = 0) by lia. assert (dy = 0) by lia. subst. now destruct Hne.
Qed.

End ShadowMore.

(** ** More on the whole run *)

Section MainMore.

Variable env : Env.

Lemma keeps_requests_bind {A B} (m : M A) (f : A -> M B) :
  keeps_requests m -> (forall a, keeps_requests (f a)) ->
  keeps_requests (m ≫= f).
Proof.
  intros Hm Hf w outcome w'. unfold mbind, M_bind.
  destruct (m w) as [[a|e] w1] eqn:E; intros H.
  - rewrite (Hf a _ _ _ H). exact (Hm _ _ _ E).
  - apply pair_equal_spec in H as [_ <-]. exact (Hm _ _ _ E).
Qed.

Lemma keeps_requests_print (line : string) : keeps_requests (print line).
Proof. intros w outcome w' [= <- <-]. reflexivity. Qed.

Lemma keeps_requests_print_stderr (line : string) :
  keeps_requests (print_stderr line).
Proof. intros w outcome w' [= <- <-]. reflexivity. Qed.

Lemma keeps_requests_ret {A} (a : A) : keeps_requests (mret a).
Proof. intros w outcome w' [= <- <-]. reflexivity. Qed.

Lemma keeps_requests_lift {A} (m : exc A) : keeps_requests (lift m).
Proof. intros w outcome w' [= <- <-]. reflexivity. Qed.

Lemma keeps_requests_print_items (items : PyDict.dict) :
  keeps_requests (print_items items).
Proof.
  induction items as [|[key value] items IH]; cbn [print_items].
  - apply keeps_requests_ret.
  - apply keeps_requests_bind; [apply keeps_requests_print | intros _; exact IH].
Qed.

Lemma keeps_requests_overlay_metadata (image : Image) (metadata : PyDict.dict) :
  keeps_requests (overlay_metadata env image metadata).
Proof.
  unfold overlay_metadata.
  apply keeps_requests_bind; [apply keeps_requests_print | intros _].
  apply keeps_requests_lift.
Qed.

Lemma keeps_requests_Image_save (image : Image) (name format : string)
    (quality : Z) :
  keeps_requests (Image_save env image name format quality).
Proof.
  intros w outcome w'. unfold Image_save.
  destruct (save env image name format quality (files w)).
  intros [= <- <-]. reflexivity.
Qed.

(** Each of the two functions that fetch sends one request, however it
    ends. *)
Lemma download_image_requests (url : string) (w w' : World)
    (outcome : exc Image) :
  download_image env url w = (outcome, w') ->
  requests_sent w' = S (requests_sent w).
Proof.
  unfold download_image, requests_get, print, lift, mbind, M_bind. cbn.
  destruct (network env url 30 (requests_sent w)) as [response|e];
    [destruct (raise_for_status env response) as [[]|e]|];
    intros H; apply pair_equal_spec in H as [_ <-]; reflexivity.
Qed.

Lemma extract_exif_data_requests (url : string) (w w' : World)
    (outcome : exc PyDict.dict) :
  extract_exif_data env url w = (outcome, w') ->
  requests_sent w' = S (requests_sent w).
Proof.
  unfold extract_exif_data, requests_get, print, lift, mbind, M_bind. cbn.
  destruct (network env url 30 (requests_sent w)) as [response|e];
    [destruct (raise_for_status env response) as [[]|e];
     [destruct (process_file env (content response))|]|];
    intros H; apply pair_equal_spec in H as [_ <-]; reflexivity.
Qed.

(** What follows the two fetches in [main] sends nothing. *)
Lemma main_rest_keeps_requests (image : Image) (metadata : PyDict.dict) :
  keeps_requests
    (print (newline +:+ "Extracted Metadata:");;
     print_items metadata;;
     image_with_metadata ← overlay_metadata env image metadata;
     Image_save env image_with_metadata OUTPUT_FILENAME "JPEG" 95;;
     print (newline +:+ "✅ Success! Image saved as " +:+ OUTPUT_FILENAME);;
     mret 0).
Proof.
  apply keeps_requests_bind; [apply keeps_requests_print | intros _].
  apply keeps_requests_bind; [apply keeps_requests_print_items | intros _].
  apply keeps_requests_bind; [apply keeps_requests_overlay_metadata | intros out].
  apply keeps_requests_bind; [apply keeps_requests_Image_save | intros _].
  apply keeps_requests_bind; [apply keeps_requests_print | intros _].
  apply keeps_requests_ret.
Qed.

Lemma main_try_requests (w w1 : World) (outcome : exc Z) :
  main_try env w = (outcome, w1) ->
  (requests_sent w1 = S (requests_sent w)
   \/ requests_sent w1 = S (S (requests_sent w)))
  /\ (succeeds outcome = true -> requests_sent w1 = S (S (requests_sent w)))
  /\ (succeeds (fst (download_image env SAMPLE_IMAGE_URL w)) = false ->
      requests_sent w1 = S (requests_sent w)).
Proof.
  unfold main_try. intros H.
  destruct (download_image env SAMPLE_IMAGE_URL w) as [[image|e] w2] eqn:E2.
  - pose proof (download_image_requests _ _ _ _ E2) as R2.
    rewrite (bind_ok _ _ _ _ _ E2) in H.
    destruct (extract_exif_data env SAMPLE_IMAGE_URL w2)
      as [[metadata|e] w3] eqn:E3.
    + pose proof (extract_exif_data_requests _ _ _ _ E3) as R3.
      rewrite (bind_ok _ _ _ _ _ E3) in H.
      rewrite (main_rest_keeps_requests image metadata _ _ _ H), R3, R2.
      repeat split; auto. discriminate.
    + pose proof (extract_exif_data_requests _ _ _ _ E3) as R3.
      rewrite (bind_raise _ _ _ _ _ E3) in H.
      apply pair_equal_spec in H as [<- <-]. rewrite R3, R2.
      repeat split; auto; discriminate.
  - pose proof (download_image_requests _ _ _ _ E2) as R2.
    rewrite (bind_raise _ _ _ _ _ E2) in H.
    apply pair_equal_spec in H as [<- <-]. rewrite R2.
    repeat split; auto; discriminate.
Qed.

(** X14: every run of [main] sends one or two requests: two whenever it
    exits with code 0, and one when [download_image] raises, the second
    fetch being then never made. *)
Theorem main_requests (w : World) :
  (requests_sent (snd (main env w)) = S (requests_sent w)
   \/ requests_sent (snd (main env w)) = S (S (requests_sent w)))
  /\ (fst (main env w) = Ok 0 ->
      requests_sent (snd (main env w)) = S (S (requests_sent w)))
  /\ (succeeds (fst (download_image env SAMPLE_IMAGE_URL w)) = false ->
      requests_sent (snd (main env w)) = S (requests_sent w)).
Proof.
  unfold main, try_except.
  destruct (main_try env w) as [[code|e] w1] eqn:E;
    destruct (main_try_requests w w1 _ E) as (Hany & Hok & Hfirst); cbn.
  - repeat split; auto.
  - repeat split; auto. discriminate.
Qed.

(** [print_items] prints one line for each item, in order. *)
Lemma print_items_run (items : PyDict.dict) (w : World) :
  exists w',
    print_items items w = (Ok tt, w')
    /\ stdout w'
       = (stdout w
          ++ map (fun item => "  " +:+ fst item +:+ ": " +:+ snd item) items)%list
    /\ files w' = files w /\ stderr w' = stderr w.
Proof.
  revert w. induction items as [|[key value] items IH]; intros w.
  - exists w. cbn. now rewrite app_nil_r.
  - cbn [print_items]. unfold mbind, M_bind, print at 1.
    destruct (IH {| stdout := stdout w ++ ["  " +:+ key +:+ ": " +:+ value];
                    stderr := stderr w; requests_sent := requests_sent w;
                    files := files w |}) as (w' & E & Hout & Hfiles & Herr).
    exists w'. rewrite E. split; [reflexivity|]. cbn in Hout, Hfiles, Herr.
    split; [|split; assumption].
    rewrite Hout, <- app_assoc. reflexivity.
Qed.

(** The outcome of the renderer does not depend on the world, and the
    renderer leaves the files and the error stream alone. *)
Lemma overlay_metadata_outcome (image : Image) (metadata : PyDict.dict)
    (wa wb : World) :
  fst (overlay_metadata env image metadata wa)
  = fst (overlay_metadata env image metadata wb).
Proof. reflexivity. Qed.


End MainMore.

Section MainOutput.

Variable env : Env.

Lemma download_image_stdout (url : string) (w w' : World)
    (outcome : exc Image) :
  download_image env url w = (outcome, w') ->
  stdout w' = (stdout w ++ ["Downloading image from " +:+ url +:+ "..."])%list.
Proof.
  unfold download_image, requests_get, print, lift, mbind, M_bind. cbn.
  destruct (network env url 30 (requests_sent w)) as [response|e];
    [destruct (raise_for_status env response) as [[]|e]|];
    intros H; apply pair_equal_spec in H as [_ <-]; reflexivity.
Qed.

Lemma extract_exif_data_stdout (url : string) (w w' : World)
    (outcome : exc PyDict.dict) :
  extract_exif_data env url w = (outcome, w') ->
  stdout w' = (stdout w ++ ["Extracting EXIF metadata..."])%list.
Proof.
  unfold extract_exif_data, requests_get, print, lift, mbind, M_bind. cbn.
  destruct (network env url 30 (requests_sent w)) as [response|e];
    [destruct (raise_for_status env response) as [[]|e];
     [destruct (process_file env (content response))|]|];
    intros H; apply pair_equal_spec in H as [_ <-]; reflexivity.
Qed.

(** A successful extraction has read some tags. *)
Lemma extract_exif_data_ok_reads (url : string) (w w' : World)
    (metadata : PyDict.dict) :
  extract_exif_data env url w = (Ok metadata, w') ->
  exists tags, reads_tags env url w tags.
Proof.
  unfold extract_exif_data, reads_tags, requests_get, print, lift, mbind,
    M_bind. cbn.
  destruct (network env url 30 (requests_sent w)) as [response|e];
    [|discriminate].
  destruct (raise_for_status env response) as [[]|e] eqn:Hs; [|discriminate].
  destruct (process_file env (content response)) as [tags|e] eqn:Hp;
    [|discriminate].
  intros _. exists tags, response. now repeat split.
Qed.

(** X16: a run that exits with code 0 has printed, in this order: the
    download line, the extraction line, the heading, one line for each
    of the six fields in the order camera, lens, aperture, shutter, iso,
    datetime, the overlay line and the success line. *)
Theorem main_success_output (w w' : World) :
  main env w = (Ok 0, w') ->
  exists metadata,
    PyDict.keys metadata = fields
    /\ stdout w'
       = (stdout w
          ++ [ "Downloading image from " +:+ SAMPLE_IMAGE_URL +:+ "...";
               "Extracting EXIF metadata...";
               newline +:+ "Extracted Metadata:" ]
          ++ map (fun item => "  " +:+ fst item +:+ ": " +:+ snd item) metadata
          ++ [ "Overlaying metadata onto image...";
               newline +:+ "✅ Success! Image saved as " +:+ OUTPUT_FILENAME ])%list.
Proof.
  unfold main, try_except.
  destruct (main_try env w) as [[code|e] w1] eqn:H; [|discriminate].
  intros [= -> ->]. unfold main_try in H.
  apply bind_ok_inv in H as (image & w2 & E2 & H).
  apply bind_ok_inv in H as (metadata & w3 & E3 & H).
  apply bind_ok_inv in H as ([] & w4 & E4 & H).
  apply bind_ok_inv in H as ([] & w5 & E5 & H).
  apply bind_ok_inv in H as (composited & w6 & E6 & H).
  apply bind_ok_inv in H as ([] & w7 & E7 & H).
  apply bind_ok_inv in H as ([] & w8 & E8 & H).
  apply pair_equal_spec in H as [_ <-].
  exists metadata. split.
  - destruct (extract_exif_data_ok_reads _ _ _ _ E3) as [tags Hr].
    destruct (extract_exif_data_inv env _ _ _ tags metadata Hr E3)
      as (a & d & _ & _ & ->).
    reflexivity.
  - pose proof (download_image_stdout _ _ _ _ E2) as O2.
    pose proof (extract_exif_data_stdout _ _ _ _ E3) as O3.
    apply pair_equal_spec in E4 as [_ <-].
    destruct (print_items_run metadata
                {| stdout := stdout w3 ++ [newline +:+ "Extracted Metadata:"];
                   stderr := stderr w3; requests_sent := requests_sent w3;
                   files := files w3 |}) as (w5' & E5' & O5 & _).
    rewrite E5 in E5'. apply pair_equal_spec in E5' as [_ <-]. cbn in O5.
    destruct (overlay_metadata_ok_inv env _ _ _ _ _ E6)
      as (? & ? & ? & ? & ? & ? & ? & ? & ? & ? & ? & _ & _ & _ & _ & _ & _
          & _ & _ & _ & O6 & _).
    unfold Image_save in E7.
    destruct (save env composited OUTPUT_FILENAME "JPEG" 95 (files w6)).
    apply pair_equal_spec in E7 as [_ <-].
    apply pair_equal_spec in E8 as [_ <-]. cbn.
    rewrite O6, O5, O3, O2, <- !app_assoc. reflexivity.
Qed.

(** X17: a request that raises ends the run with exit code 1, the
    message of the exception on the error stream and the files as they
    were: after one request when it is the first, and after two when it
    is the second, the image already downloaded and decoded being then
    dropped. *)
Theorem main_request_raises (w : World) :
  (forall e,
      network env SAMPLE_IMAGE_URL 30 (requests_sent w) = Raise e ->
      exists w',
        main env w = (Ok 1, w')
        /\ stderr w'
           = (stderr w ++ [newline +:+ "❌ Error: " +:+ exn_str e])%list
        /\ files w' = files w
        /\ requests_sent w' = S (requests_sent w))
  /\ (forall first image e,
      network env SAMPLE_IMAGE_URL 30 (requests_sent w) = Ok first ->
      raise_for_status env first = Ok tt ->
      Image_open env (content first) = Ok image ->
      network env SAMPLE_IMAGE_URL 30 (S (requests_sent w)) = Raise e ->
      exists w',
        main env w = (Ok 1, w')
        /\ stderr w'
           = (stderr w ++ [newline +:+ "❌ Error: " +:+ exn_str e])%list
        /\ files w' = files w
        /\ requests_sent w' = S (S (requests_sent w))).
Proof.
  split.
  - intros e Hget.
    unfold main, try_except, main_try, main_except, download_image,
      requests_get, print, print_stderr, lift, mbind, M_bind, mret, M_ret.
    cbn. rewrite Hget. eexists. repeat split.
  - intros first image e Hget Hstatus Hopen Hsecond.
    unfold main, try_except, main_try, main_except, download_image,
      extract_exif_data, requests_get, print, print_stderr, lift, mbind,
      M_bind, mret, M_ret.
    cbn. rewrite Hget, Hstatus, Hopen. cbn. rewrite Hsecond.
    eexists. repeat split.
Qed.

End MainOutput.

(** ** The further properties on concrete runs *)

Lemma extract_exif_data_lens_shutter_iso_witness :
  exists metadata w',
    extract_exif_data (Demo.env 200 Demo.canon_tags true) SAMPLE_IMAGE_URL
      Demo.world = (Ok metadata, w')
    /\ PyDict.get "lens" metadata = Some "Unknown Lens"
    /\ PyDict.get "shutter" metadata = Some "1/160s"
    /\ PyDict.get "iso" metadata = Some "ISO 100".
Proof.
  destruct (extract_exif_data (Demo.env 200 Demo.canon_tags true)
              SAMPLE_IMAGE_URL Demo.world)
    as [[metadata|e] w'] eqn:Hrun; [|vm_compute in Hrun; discriminate].
  exists metadata, w'. split; [reflexivity|].
  exact (extract_exif_data_lens_shutter_iso (Demo.env 200 Demo.canon_tags true)
           SAMPLE_IMAGE_URL Demo.world w' Demo.canon_tags metadata
           (demo_reads_tags Demo.canon_tags true Demo.world) Hrun).
Defined.

Lemma extract_exif_data_many_slashes_witness :
  exists e w',
    extract_exif_data
      (Demo.env 200 (<["EXIF FNumber" := Demo.tag "1/2/3"]> ∅) true)
      SAMPLE_IMAGE_URL Demo.world = (Raise e, w')
    /\ exn_class e = ValueError.
Proof.
  apply (extract_exif_data_many_slashes
           (Demo.env 200 (<["EXIF FNumber" := Demo.tag "1/2/3"]> ∅) true)
           SAMPLE_IMAGE_URL Demo.world
           (<["EXIF FNumber" := Demo.tag "1/2/3"]> ∅) (Demo.tag "1/2/3")
           (demo_reads_tags _ true Demo.world));
    [vm_compute; reflexivity | cbn; lia].
Defined.

Lemma extract_exif_data_float_rejects_witness :
  exists w',
    extract_exif_data
      (Demo.env 200 (<["EXIF FNumber" := Demo.tag "x/2"]> ∅) true)
      SAMPLE_IMAGE_URL Demo.world
    = (Raise (Exn ValueError "could not convert string to float: 'x'"), w').
Proof.
  apply (extract_exif_data_float_rejects
           (Demo.env 200 (<["EXIF FNumber" := Demo.tag "x/2"]> ∅) true)
           SAMPLE_IMAGE_URL Demo.world
           (<["EXIF FNumber" := Demo.tag "x/2"]> ∅) (Demo.tag "x/2") "x" "2"
           (Exn ValueError "could not convert string to float: 'x'")
           (demo_reads_tags _ true Demo.world));
    [vm_compute; reflexivity | reflexivity | reflexivity | reflexivity
    |left; vm_compute; reflexivity].
Defined.

Lemma extract_exif_data_succeeds_iff_witness :
  exists metadata w',
    extract_exif_data (Demo.env 200 Demo.canon_tags true) SAMPLE_IMAGE_URL
      Demo.world = (Ok metadata, w').
Proof.
  apply (proj2 (extract_exif_data_succeeds_iff
                  (Demo.env 200 Demo.canon_tags true) SAMPLE_IMAGE_URL
                  Demo.world Demo.canon_tags
                  (demo_reads_tags Demo.canon_tags true Demo.world))).
  replace (Demo.canon_tags !! "EXIF FNumber") with (Some (Demo.tag "71/10"))
    by (vm_compute; reflexivity).
  replace (Demo.canon_tags !! "EXIF DateTimeOriginal")
    with (Some (Demo.tag "2008:05:30 15:56:01")) by (vm_compute; reflexivity).
  split; [|reflexivity].
  right. exists "71", "10", (PyFloat.of_Z 71), (PyFloat.of_Z 10).
  repeat split; vm_compute; reflexivity.
Defined.

Lemma extract_exif_data_datetime_parts_witness :
  exists metadata w' date time,
    extract_exif_data (Demo.env 200 Demo.canon_tags true) SAMPLE_IMAGE_URL
      Demo.world = (Ok metadata, w')
    /\ "2008:05:30 15:56:01" = date +:+ " " +:+ time
    /\ PyDict.get "datetime" metadata
       = Some (PyStr.replace ":" "-" date +:+ " " +:+ time).
Proof.
  destruct (extract_exif_data (Demo.env 200 Demo.canon_tags true)
              SAMPLE_IMAGE_URL Demo.world)
    as [[metadata|e] w'] eqn:Hrun; [|vm_compute in Hrun; discriminate].
  assert (Htag : Demo.canon_tags !! "EXIF DateTimeOriginal"
                 = Some (Demo.tag "2008:05:30 15:56:01"))
    by (vm_compute; reflexivity).
  destruct (extract_exif_data_datetime_parts
              (Demo.env 200 Demo.canon_tags true) SAMPLE_IMAGE_URL Demo.world
              w' Demo.canon_tags metadata (Demo.tag "2008:05:30 15:56:01")
              (demo_reads_tags Demo.canon_tags true Demo.world) Hrun Htag)
    as (date & time & Hp & _ & _ & _ & Hget).
  exists metadata, w', date, time. repeat split; assumption.
Defined.

Lemma extract_exif_data_aperture_prefix_witness :
  exists metadata w' rest,
    extract_exif_data (Demo.env 200 Demo.canon_tags true) SAMPLE_IMAGE_URL
      Demo.world = (Ok metadata, w')
    /\ PyDict.get "aperture" metadata = Some ("f/" +:+ rest).
Proof.
  destruct (extract_exif_data (Demo.env 200 Demo.canon_tags true)
              SAMPLE_IMAGE_URL Demo.world)
    as [[metadata|e] w'] eqn:Hrun; [|vm_compute in Hrun; discriminate].
  destruct (extract_exif_data_aperture_prefix
              (Demo.env 200 Demo.canon_tags true) SAMPLE_IMAGE_URL Demo.world
              w' Demo.canon_tags metadata
              (demo_reads_tags Demo.canon_tags true Demo.world) Hrun)
    as [rest Hget].
  exists metadata, w', rest. split; [reflexivity | exact Hget].
Defined.

Lemma extract_exif_data_camera_trimmed_witness :
  exists metadata w' camera,
    extract_exif_data (Demo.env 200 Demo.canon_tags true) SAMPLE_IMAGE_URL
      Demo.world = (Ok metadata, w')
    /\ PyDict.get "camera" metadata = Some camera
    /\ PyStr.starts_with_space camera = false
    /\ PyStr.ends_with_space camera = false.
Proof.
  destruct (extract_exif_data (Demo.env 200 Demo.canon_tags true)
              SAMPLE_IMAGE_URL Demo.world)
    as [[metadata|e] w'] eqn:Hrun; [|vm_compute in Hrun; discriminate].
  assert (Hmake : Demo.canon_tags !! "Image Make" = Some (Demo.tag "Canon"))
    by (vm_compute; reflexivity).
  assert (Hmodel : Demo.canon_tags !! "Image Model"
                   = Some (Demo.tag "Canon EOS 40D"))
    by (vm_compute; reflexivity).
  destruct (extract_exif_data_camera_trimmed
              (Demo.env 200 Demo.canon_tags true) SAMPLE_IMAGE_URL Demo.world
              w' Demo.canon_tags metadata (Demo.tag "Canon")
              (Demo.tag "Canon EOS 40D")
              (demo_reads_tags Demo.canon_tags true Demo.world) Hrun Hmake Hmodel)
    as (camera & l & r & Hget & Hstart & Hend & _).
  exists metadata, w', camera. repeat split; assumption.
Defined.

(** The second candidate is on disk and does not load: the default font
    is used, and the two candidates after it are not tried. *)
Lemma resolve_font_first_existing_witness :
  resolve_font
    (Demo.with_fonts
       (String.eqb "/usr/share/fonts/truetype/liberation/LiberationSans-Bold.ttf")
       (fun _ _ => Raise (Exn (LibraryError "OSError") "cannot open resource"))
       (Ok DefaultFont) (Demo.env 200 ∅ true))
  = Ok DefaultFont.
Proof.
  apply (proj1 (resolve_font_first_existing
                  (Demo.with_fonts
                     (String.eqb "/usr/share/fonts/truetype/liberation/LiberationSans-Bold.ttf")
                     (fun _ _ => Raise (Exn (LibraryError "OSError")
                                          "cannot open resource"))
                     (Ok DefaultFont) (Demo.env 200 ∅ true)))
           ["/usr/share/fonts/truetype/dejavu/DejaVuSans-Bold.ttf"]
           "/usr/share/fonts/truetype/liberation/LiberationSans-Bold.ttf"
           ["/System/Library/Fonts/Helvetica.ttc"; "C:\Windows\Fonts\arial.ttf"]).
  - reflexivity.
  - intros p Hp. apply list_elem_of_singleton in Hp. subst p. reflexivity.
  - reflexivity.
Defined.

Lemma resolve_font_raises_only_default_witness :
  load_default
    (Demo.with_fonts (fun _ => false) (fun path size => Ok (TrueTypeFont path size))
       (Raise (Exn (LibraryError "OSError") "no default font"))
       (Demo.env 200 ∅ true))
  = Raise (Exn (LibraryError "OSError") "no default font").
Proof.
  apply (resolve_font_raises_only_default
           (Demo.with_fonts (fun _ => false)
              (fun path size => Ok (TrueTypeFont path size))
              (Raise (Exn (LibraryError "OSError") "no default font"))
              (Demo.env 200 ∅ true))).
  reflexivity.
Defined.

Lemma create_text_with_shadow_any_offset_witness :
  Z.of_nat (length (shadow_offsets 1)) = 8 /\ shadow_offsets 0 = [].
Proof.
  split.
  - destruct (create_text_with_shadow_any_offset 1) as (_ & _ & _ & Hcount & _).
    apply Hcount. lia.
  - destruct (create_text_with_shadow_any_offset 0) as (_ & _ & _ & _ & Hnone).
    apply Hnone. lia.
Defined.


Lemma overlay_metadata_missing_key_witness :
  exists w',
    overlay_metadata (Demo.env 200 ∅ true) Demo.image
      [("camera", "Test Cam"); ("lens", "Test Lens")] Demo.world
    = (Raise (Exn KeyError "'aperture'"), w').
Proof.
  apply (overlay_metadata_missing_key (Demo.env 200 ∅ true) Demo.image
           [("camera", "Test Cam"); ("lens", "Test Lens")] Demo.world
           DefaultFont ["camera"; "lens"] ["shutter"; "iso"; "datetime"]
           "aperture").
  - reflexivity.
  - repeat constructor; cbn; eauto.
  - reflexivity.
  - reflexivity.
Defined.


Lemma main_success_output_witness :
  exists w',
    main (Demo.env 200 Demo.canon_tags true) Demo.world = (Ok 0, w')
    /\ length (stdout w') = 11%nat.
Proof.
  destruct (main (Demo.env 200 Demo.canon_tags true) Demo.world)
    as [code w'] eqn:Hrun.
  assert (Hcode : code = Ok 0).
  { pose proof (f_equal fst Hrun) as H. cbn [fst] in H. rewrite <- H.
    vm_compute. reflexivity. }
  subst code. exists w'. split; [reflexivity|].
  destruct (main_success_output (Demo.env 200 Demo.canon_tags true) Demo.world
              w' Hrun) as (metadata & Hkeys & Hout).
  rewrite Hout, !length_app, length_map.
  replace (length metadata) with (length (PyDict.keys metadata))
    by apply length_map.
  rewrite Hkeys. reflexivity.
Defined.

Lemma main_request_raises_witness :
  exists w',
    main (Demo.with_network Demo.one_answer (Demo.env 200 Demo.canon_tags true))
      Demo.world = (Ok 1, w')
    /\ stderr w' = [newline +:+ "❌ Error: Read timed out."]
    /\ files w' = ∅
    /\ requests_sent w' = 2%nat.
Proof.
  destruct (main_request_raises
              (Demo.with_network Demo.one_answer
                 (Demo.env 200 Demo.canon_tags true)) Demo.world)
    as [_ Hsecond].
  apply (Hsecond (Demo.response 200) Demo.image
           (Exn (LibraryError "Timeout") "Read timed out."));
    reflexivity.
Defined.

Section OtherTags.

Variable env : Env.

(** X18: the extractor reads seven tags and no other: when the tags read
    agree with another tag set on those seven keys, the outcome is what
    the field rules make of that other set, whatever else either holds. *)
Theorem extract_exif_data_reads_seven_tags (url : string) (w : World)
    (tags others : gmap string IfdTag) :
  reads_tags env url w tags ->
  Forall (fun key => tags !! key = others !! key)
    [ "Image Make"; "Image Model"; "EXIF LensModel"; "EXIF FNumber";
      "EXIF ExposureTime"; "EXIF ISOSpeedRatings"; "EXIF DateTimeOriginal" ] ->
  exists w', extract_exif_data env url w = (extract_fields env others, w').
Proof.
  intros Hr Hsame.
  destruct (extract_exif_data_reads env url w tags Hr) as [w' E].
  exists w'. rewrite E. f_equal.
  repeat (apply Forall_cons in Hsame as [? Hsame]).
  unfold extract_fields, camera_text, lens_text, aperture_text, shutter_text,
    iso_text, datetime_text.
  repeat match goal with
         | H : tags !! ?key = others !! ?key |- _ => rewrite H; clear H
         end.
  reflexivity.
Qed.

End OtherTags.

(** The sample tags, with a thumbnail and a GPS tag besides. *)
Lemma extract_exif_data_reads_seven_tags_witness :
  exists w',
    extract_exif_data
      (Demo.env 200
         (<["GPS GPSAltitude" := Demo.tag "0"]>
            (<["Thumbnail Compression" := Demo.tag "JPEG (old-style)"]>
               Demo.canon_tags)) true)
      SAMPLE_IMAGE_URL Demo.world
    = (extract_fields
         (Demo.env 200
            (<["GPS GPSAltitude" := Demo.tag "0"]>
               (<["Thumbnail Compression" := Demo.tag "JPEG (old-style)"]>
                  Demo.canon_tags)) true)
         Demo.canon_tags, w').
Proof.
  apply (extract_exif_data_reads_seven_tags
           (Demo.env 200
              (<["GPS GPSAltitude" := Demo.tag "0"]>
                 (<["Thumbnail Compression" := Demo.tag "JPEG (old-style)"]>
                    Demo.canon_tags)) true)
           SAMPLE_IMAGE_URL Demo.world
           (<["GPS GPSAltitude" := Demo.tag "0"]>
              (<["Thumbnail Compression" := Demo.tag "JPEG (old-style)"]>
                 Demo.canon_tags))
           Demo.canon_tags (demo_reads_tags _ true Demo.world)).
  repeat constructor; vm_compute; reflexivity.
Defined.
